(** * POCS: the INDI server manager and the observatory composition root

    A shallow embedding of [panoptes/utils/indi/server.py] (class
    [PanIndiServer]) and of [panoptes/observatory.py] (class [Observatory]),
    together with the properties of the design document that can be decided
    on that code.

    Python objects are records whose fields are the instance attributes;
    methods are computations in a state-and-exception monad, so that the
    effects of a method that raises half way are still visible afterwards,
    the way they are in Python. *)

From Stdlib Require Import ZArith String List Bool.
From stdpp Require Import base option list gmap strings pretty.

Local Open Scope string_scope.
Local Open Scope Z_scope.
Local Open Scope list_scope.

(** ** Python values, exceptions and outcomes *)

(** The values a configuration mapping read from YAML can hold.  A float is
    carried by its printed form, which is all the code ever does with one
    (it hands it to astropy or formats it).  A dict keeps its insertion
    order, the order [for k in d] and [d.items()] visit it in.  A quantity
    is what astropy makes of a value and a unit. *)
#[local] Set Warnings "-register-all".
Inductive PyVal : Type :=
  | PyNone
  | PyBool (b : bool)
  | PyInt (z : Z)
  | PyFloat (repr : string)
  | PyStr (s : string)
  | PyList (l : list PyVal)
  | PyDict (d : list (string * PyVal))
  | PyQuantity (value : PyVal) (unit : string).

#[local] Set Warnings "register-all".

Abbreviation dict := (list (string * PyVal)).

(** [key in d] and [d.get(key, default)]. *)
Fixpoint dict_lookup (d : dict) (key : string) : option PyVal :=
  match d with
  | [] => None
  | (k, v) :: d' => if String.eqb k key then Some v else dict_lookup d' key
  end.

Definition dict_contains (d : dict) (key : string) : bool :=
  match dict_lookup d key with Some _ => true | None => false end.

Definition dict_get (d : dict) (key : string) (default : PyVal) : PyVal :=
  match dict_lookup d key with Some v => v | None => default end.

(** [d[key] = v]: an existing key keeps its place, a new one goes last. *)
Fixpoint dict_set (d : dict) (key : string) (v : PyVal) : dict :=
  match d with
  | [] => [(key, v)]
  | (k, w) :: d' =>
      if String.eqb k key then (k, v) :: d' else (k, w) :: dict_set d' key v
  end.

(** The exceptions the two files can raise or meet.  The first group is
    Python's own; the second group are the classes of the package's [error]
    module as the code names them.  All of them derive from [Exception], so
    an [except Exception] clause catches every one. *)
Inductive exn : Type :=
  | AssertionError
  | AttributeError (attr : string)
  | TypeError (msg : string)
  | ImportError (name : string)
  | OSError (errno : string)
  | UnboundLocalError (var : string)
  | OtherException (cls : string)
  | error_Error (msg : string)
  | error_PanError (msg : string)
  | error_InvalidCommand (msg : string)
  | error_NotFound (msg : PyVal).

(** An error is structured when it is one of the package's own error
    classes, as opposed to an exception of the interpreter. *)
Definition structured (e : exn) : bool :=
  match e with
  | error_Error _ | error_PanError _ | error_InvalidCommand _
  | error_NotFound _ => true
  | _ => false
  end.

(** [except error.InvalidCommand] *)
Definition is_InvalidCommand (e : exn) : bool :=
  match e with error_InvalidCommand _ => true | _ => false end.

(** [except ImportError] *)
Definition is_ImportError (e : exn) : bool :=
  match e with ImportError _ => true | _ => false end.

(** What a call does: return a value, raise, or never come back (a blocking
    [open] of a FIFO that has no reader). *)
Inductive res (A : Type) : Type :=
  | Ret (a : A)
  | Raise (e : exn)
  | Blocked.
Arguments Ret {A} a.
Arguments Raise {A} e.
Arguments Blocked {A}.

Definition raises_structured {A} (r : res A) : bool :=
  match r with Raise e => structured e | _ => false end.

(** ** The monad of methods

    A method is run on a state [S] (the object, the operating system, the
    log) and yields an outcome and the state it leaves. *)
Definition M (S A : Type) : Type := S -> res A * S.

Definition ret {S A} (a : A) : M S A := fun s => (Ret a, s).

Definition raise {S A} (e : exn) : M S A := fun s => (Raise e, s).

Definition bind {S A B} (m : M S A) (k : A -> M S B) : M S B :=
  fun s =>
    match m s with
    | (Ret a, s') => k a s'
    | (Raise e, s') => (Raise e, s')
    | (Blocked, s') => (Blocked, s')
    end.

(** [try: m  except Exception as e: h e] *)
Definition try_except {S A} (m : M S A) (h : exn -> M S A) : M S A :=
  fun s =>
    match m s with
    | (Raise e, s') => h e s'
    | r => r
    end.

Definition modify {S} (f : S -> S) : M S unit := fun s => (Ret tt, f s).
Definition lift {S A} (r : res A) : M S A := fun s => (r, s).

Declare Scope py_scope.
Delimit Scope py_scope with py.
Notation "'let!' x ':=' m 'in' k" := (bind m (fun x => k))
  (at level 10, x name, m at level 100, k at level 200) : py_scope.
Notation "m ';;;' k" := (bind m (fun _ => k))
  (at level 100, right associativity) : py_scope.
Local Open Scope py_scope.

Inductive level : Type := DEBUG | INFO | WARNING.

(** [str(e)] as far as the log needs it. *)
Definition exn_str (e : exn) : string :=
  match e with
  | AssertionError => EmptyString
  | AttributeError a => "object has no attribute '" +:+ a +:+ "'"
  | TypeError m => m
  | ImportError n => "No module named '" +:+ n +:+ "'"
  | OSError m => m
  | UnboundLocalError v =>
      "local variable '" +:+ v +:+ "' referenced before assignment"
  | OtherException c => c
  | error_Error m | error_PanError m | error_InvalidCommand m => m
  | error_NotFound _ => "NotFound"
  end.

(** The characters tab and newline. *)
Definition TAB : string := String (Ascii.ascii_of_nat 9) EmptyString.
Definition NL : string := String (Ascii.ascii_of_nat 10) EmptyString.

(** The double quote character. *)
Definition DQ : string := String (Ascii.ascii_of_nat 34) EmptyString.

(** [sep.join(l)] *)
Fixpoint join (sep : string) (l : list string) : string :=
  match l with
  | [] => EmptyString
  | [x] => x
  | x :: l' => x +:+ sep +:+ join sep l'
  end.

(** ** panoptes/utils/indi/server.py *)

Module Indi.

(** *** The operating system the server manager talks to *)

(** A path of the file system names a FIFO or a regular file.  A FIFO
    remembers whether some process holds it open for reading and which
    writes went through it, one entry per [write]. *)
Inductive node : Type :=
  | Fifo (reader : bool) (written : list string)
  | Regular (content : string).

(** An entry of the process table.  A child that was sent SIGTERM keeps its
    entry (it is a zombie until it is waited for, which this class never
    does); [sigterm] records that the signal was sent. *)
Record process : Type := { pgid : Z; argv : list string; sigterm : bool }.

Record OS : Type := {
  search_path : gmap string string;  (* shutil.which: command -> executable *)
  fs : gmap string node;
  denied : gset string;   (* paths at which no entry may be made or removed *)
  procs : gmap Z process;
  fork_ok : bool;         (* whether the next Popen can create a process *)
  next_pid : Z;
  own_pgid : Z
}.

(** [subprocess.Popen] objects: the class only reads [pid]. *)
Record Popen : Type := { pid : Z }.

(** The instance attributes; [None] is an attribute that was never
    assigned, reading it raises [AttributeError]. *)
Record PanIndiServer : Type := {
  _indiserver : option (option string);
  _fifo : option string;
  _proc : option Popen;
  _connected : option bool
}.

Definition blank : PanIndiServer :=
  {| _indiserver := None; _fifo := None; _proc := None; _connected := None |}.

Record St : Type := {
  self : PanIndiServer;
  os : OS;
  logged : list (level * string)
}.

Definition with_self (f : PanIndiServer -> PanIndiServer) (s : St) : St :=
  {| self := f (self s); os := os s; logged := logged s |}.

Definition with_os (f : OS -> OS) (s : St) : St :=
  {| self := self s; os := f (os s); logged := logged s |}.

Definition set_fs (f : gmap string node -> gmap string node) (w : OS) : OS :=
  {| search_path := search_path w; fs := f (fs w); denied := denied w;
     procs := procs w; fork_ok := fork_ok w; next_pid := next_pid w;
     own_pgid := own_pgid w |}.

Definition set_procs (f : gmap Z process -> gmap Z process) (w : OS) : OS :=
  {| search_path := search_path w; fs := fs w; denied := denied w;
     procs := f (procs w); fork_ok := fork_ok w; next_pid := next_pid w;
     own_pgid := own_pgid w |}.

Definition log (l : level) (msg : string) : M St unit :=
  modify (fun s =>
    {| self := self s; os := os s; logged := logged s ++ [(l, msg)] |}).

(** Reading an attribute. *)
Definition getattr {A} (name : string) (f : PanIndiServer -> option A)
  : M St A :=
  fun s =>
    match f (self s) with
    | Some a => (Ret a, s)
    | None => (Raise (AttributeError name), s)
    end.

Definition set_indiserver (v : option string) : M St unit :=
  modify (with_self (fun o =>
    {| _indiserver := Some v; _fifo := _fifo o; _proc := _proc o;
       _connected := _connected o |})).

Definition set_fifo (v : string) : M St unit :=
  modify (with_self (fun o =>
    {| _indiserver := _indiserver o; _fifo := Some v; _proc := _proc o;
       _connected := _connected o |})).

Definition set_proc (v : Popen) : M St unit :=
  modify (with_self (fun o =>
    {| _indiserver := _indiserver o; _fifo := _fifo o; _proc := Some v;
       _connected := _connected o |})).

Definition set_connected (v : bool) : M St unit :=
  modify (with_self (fun o =>
    {| _indiserver := _indiserver o; _fifo := _fifo o; _proc := _proc o;
       _connected := Some v |})).

(** *** System calls *)

(** [shutil.which(cmd)] *)
Definition shutil_which (cmd : string) : M St (option string) :=
  fun s => (Ret (search_path (os s) !! cmd), s).

(** [os.path.exists(path)] for a path of the file system. *)
Definition os_path_exists (path : string) : M St bool :=
  fun s => (Ret (bool_decide (is_Some (fs (os s) !! path))), s).

(** [os.path.exists('/proc/{}'.format(pid))]: procfs has the entry exactly
    when the process table has the pid. *)
Definition proc_entry_exists (p : Z) : M St bool :=
  fun s => (Ret (bool_decide (is_Some (procs (os s) !! p))), s).

(** [os.mkfifo(path)] *)
Definition os_mkfifo (path : string) : M St unit :=
  fun s =>
    if bool_decide (is_Some (fs (os s) !! path)) then
      (Raise (OSError "EEXIST"), s)
    else if bool_decide (path ∈ denied (os s)) then
      (Raise (OSError "EACCES"), s)
    else (Ret tt, with_os (set_fs (insert path (Fifo false []))) s).

(** [os.unlink(path)] *)
Definition os_unlink (path : string) : M St unit :=
  fun s =>
    if negb (bool_decide (is_Some (fs (os s) !! path))) then
      (Raise (OSError "ENOENT"), s)
    else if bool_decide (path ∈ denied (os s)) then
      (Raise (OSError "EACCES"), s)
    else (Ret tt, with_os (set_fs (delete path)) s).

(** [os.getpgid(pid)]: raises [ProcessLookupError] (an [OSError]) for a pid
    the process table does not have. *)
Definition os_getpgid (p : Z) : M St Z :=
  fun s =>
    match procs (os s) !! p with
    | Some pr => (Ret (pgid pr), s)
    | None => (Raise (OSError "ESRCH"), s)
    end.

(** [Popen.terminate()]: SIGTERM to the child. *)
Definition terminate (p : Popen) : M St unit :=
  fun s =>
    match procs (os s) !! pid p with
    | Some pr =>
        (Ret tt,
         with_os (set_procs (insert (pid p)
           {| pgid := pgid pr; argv := argv pr; sigterm := true |})) s)
    | None => (Raise (OSError "ESRCH"), s)
    end.

(** [subprocess.Popen(cmd, stderr=DEVNULL, stdout=DEVNULL)]: a [None] among
    the arguments is a [TypeError]; otherwise the system creates the child
    or fails. *)
Definition subprocess_Popen (cmd : list (option string)) : M St Popen :=
  fun s =>
    match mapM id cmd with
    | None => (Raise (TypeError "expected str, bytes or os.PathLike object"), s)
    | Some args =>
        if fork_ok (os s) then
          let w := os s in
          (Ret {| pid := next_pid w |},
           with_os (fun _ =>
             {| search_path := search_path w; fs := fs w; denied := denied w;
                procs := <[next_pid w :=
                            {| pgid := own_pgid w; argv := args;
                               sigterm := false |}]> (procs w);
                fork_ok := fork_ok w; next_pid := next_pid w + 1;
                own_pgid := own_pgid w |}) s)
        else (Raise (OSError "EAGAIN"), s)
    end.

(** [with open(path, 'w') as f: f.write(data); f.flush(); f.close()].
    Opening a FIFO for writing waits for a reader; opening a regular file
    truncates it; opening a path that does not exist creates a regular
    file. *)
Definition open_write (path data : string) : M St unit :=
  fun s =>
    match fs (os s) !! path with
    | Some (Fifo true written) =>
        (Ret tt,
         with_os (set_fs (insert path (Fifo true (written ++ [data])))) s)
    | Some (Fifo false _) => (Blocked, s)
    | Some (Regular _) =>
        (Ret tt, with_os (set_fs (insert path (Regular data))) s)
    | None =>
        if bool_decide (path ∈ denied (os s)) then
          (Raise (OSError "EACCES"), s)
        else (Ret tt, with_os (set_fs (insert path (Regular data))) s)
    end.

(** [str(proc)] of a [Popen] object. *)
Definition Popen_str (p : Popen) : string :=
  "<subprocess.Popen object, pid " +:+ pretty (pid p) +:+ ">".

(** *** The methods of [PanIndiServer] *)

(** [start(self, *args)] *)
Definition start (args : list string) : M St Popen :=
  (try_except
     (let! fifo := getattr "_fifo" _fifo in
      let! ex := os_path_exists fifo in
      if negb ex then os_mkfifo fifo
      else log WARNING "FIFO already exists.")
     (fun e =>
        let! fifo := getattr "_fifo" _fifo in
        raise (error_InvalidCommand
                 ("Can't open fifo at " +:+ fifo +:+ " " +:+ TAB +:+ " "
                  +:+ exn_str e))))
  ;;;
  let! indiserver := getattr "_indiserver" _indiserver in
  let cmd := [indiserver] in
  let! opts :=
    match args with
    | [] => let! fifo := getattr "_fifo" _fifo in
            ret ["-m"; "100"; "-f"; fifo]
    | _ => ret args
    end in
  let cmd := cmd ++ map Some opts in
  let! proc :=
    try_except
      (log DEBUG "Starting INDI Server" ;;;
       let! proc := subprocess_Popen cmd in
       log DEBUG ("INDI server started. PID: " +:+ pretty (pid proc)) ;;;
       ret proc)
      (fun e =>
         (* the warning's message reads self.host, an attribute that the
            class never assigns: evaluating it raises before anything is
            logged, so the handler never falls through to [return proc] *)
         raise (AttributeError "host")) in
  ret proc.

(** [__init__(self, fifo='/tmp/pan_indiFIFO')] *)
Definition __init__ (fifo : string) : M St unit :=
  let! w := shutil_which "indiserver" in
  set_indiserver w ;;;
  (match w with None => raise AssertionError | Some _ => ret tt end) ;;;
  set_fifo fifo ;;;
  try_except
    (let! p := start [] in set_proc p)
    (fun e =>
       log WARNING ("Problem with staring the INDI server: " +:+ exn_str e))
  ;;;
  set_connected false ;;;
  let! p := getattr "_proc" _proc in
  log DEBUG ("PanIndiServer created. PID: " +:+ Popen_str p).

(** The property [is_connected]. *)
Definition is_connected : M St bool :=
  try_except
    (let! p := getattr "_proc" _proc in
     let! b := proc_entry_exists (pid p) in
     set_connected b)
    (fun _ =>
       let! p := getattr "_proc" _proc in
       log WARNING ("Error checking for PID " +:+ pretty (pid p)))
  ;;;
  getattr "_connected" _connected.

(** [stop(self)] *)
Definition stop : M St unit :=
  let! p := getattr "_proc" _proc in
  let! g := os_getpgid (pid p) in
  (if negb (g =? 0) then
     log DEBUG ("Shutting down INDI server (PID " +:+ pretty (pid p) +:+ ")")
     ;;; terminate p
   else ret tt) ;;;
  let! fifo := getattr "_fifo" _fifo in
  let! ex := os_path_exists fifo in
  if ex then os_unlink fifo else ret tt.

(** [__del__(self)] *)
Definition __del__ : M St unit := stop.

(** Truth value of the [name] argument: [None] and [''] are false. *)
Definition truthy (name : option string) : bool :=
  match name with
  | None => false
  | Some n => negb (String.eqb n EmptyString)
  end.

(** The format of [name] between two double quotes. *)
Definition quoted (name : option string) : string :=
  match name with
  | None => DQ +:+ "None" +:+ DQ
  | Some n => DQ +:+ n +:+ DQ
  end.

(** [_write_to_server(self, cmd)].  The two [assert]s carry an
    [InvalidCommand] object as their message; what a failing [assert]
    raises is an [AssertionError]. *)
Definition _write_to_server (cmd : list string) : M St unit :=
  let! p := getattr "_proc" _proc in
  (if pid p =? 0 then raise AssertionError else ret tt) ;;;
  let! fifo := getattr "_fifo" _fifo in
  (if String.eqb fifo EmptyString then raise AssertionError else ret tt) ;;;
  let str_cmd := join " " cmd in
  log DEBUG ("Command to FIFO server: " +:+ str_cmd) ;;;
  try_except
    (let! fifo := getattr "_fifo" _fifo in
     open_write fifo str_cmd)
    (fun e =>
       raise (error_PanError ("Problem writing to FIFO: " +:+ exn_str e))).

(** The token list [load_driver] builds. *)
Definition load_cmd (name : option string) (driver : string) : list string :=
  let cmd := ["start"; driver] in
  if truthy name then cmd ++ ["-n"; quoted name; NL] else cmd.

(** The line the design expects of a load with a device name. *)
Definition load_line (name driver : string) : string :=
  "start " +:+ driver +:+ " -n " +:+ DQ +:+ name +:+ DQ +:+ " " +:+ NL.

(** [load_driver(self, name, driver)] *)
Definition load_driver (name : option string) (driver : string) : M St unit :=
  log DEBUG "Loading driver" ;;;
  _write_to_server (load_cmd name driver).

(** The token list [unload_driver] builds. *)
Definition unload_cmd (name : option string) (driver : string)
  : list string :=
  ["stop"; driver; quoted name; NL].

(** [unload_driver(self, name, driver)] *)
Definition unload_driver (name : option string) (driver : string)
  : M St unit :=
  log DEBUG "Unloading driver" ;;;
  _write_to_server (unload_cmd name driver).

(** The [try ... except error.InvalidCommand] statement in the loop of
    [load_drivers], around a body. *)
Definition skipping (dev_name dev_driver : string) (body : M St unit)
  : M St unit :=
  try_except body
    (fun e =>
       if is_InvalidCommand e then
         log WARNING ("Problem loading " +:+ dev_name +:+ " (" +:+
                      dev_driver +:+ ") driver. Skipping for now.")
       else raise e).

(** [load_drivers(self, devices={})]: [devices.items()] in dict order. *)
Fixpoint load_drivers (devices : list (string * string)) : M St unit :=
  match devices with
  | [] => ret tt
  | (dev_name, dev_driver) :: rest =>
      skipping dev_name dev_driver (load_driver (Some dev_name) dev_driver)
      ;;; load_drivers rest
  end.

(** [load_device_driver(self, device)], a device being its name and its
    driver. *)
Definition load_device_driver (device : string * string) : M St unit :=
  load_driver (Some (fst device)) (snd device).

(** [PanIndiServer(fifo)]: [__init__] on a fresh object. *)
Definition construct (fifo : string) (w : OS) : res unit * St :=
  __init__ fifo {| self := blank; os := w; logged := [] |}.

(** *** Sample systems *)

Definition indi_fifo : string := "/tmp/pan_indiFIFO".

(** A host with [indiserver] installed and nothing at the FIFO path. *)
Definition host : OS :=
  {| search_path := {["indiserver" := "/usr/bin/indiserver"]};
     fs := ∅; denied := ∅; procs := ∅; fork_ok := true;
     next_pid := 4242; own_pgid := 4000 |}.

(** The same host when the FIFO cannot be created. *)
Definition host_no_fifo : OS :=
  {| search_path := {["indiserver" := "/usr/bin/indiserver"]};
     fs := ∅; denied := {[indi_fifo]}; procs := ∅; fork_ok := true;
     next_pid := 4242; own_pgid := 4000 |}.

(** The same host when no process can be created. *)
Definition host_no_fork : OS :=
  {| search_path := {["indiserver" := "/usr/bin/indiserver"]};
     fs := ∅; denied := ∅; procs := ∅; fork_ok := false;
     next_pid := 4242; own_pgid := 4000 |}.

(** What the rest of the system does in between two calls: the server
    opens its FIFO for reading; a child that has exited is waited for and
    leaves the process table; somebody removes the pipe; a directory is
    made read-only. *)
Definition server_opens_fifo (path : string) (s : St) : St :=
  match fs (os s) !! path with
  | Some (Fifo _ written) =>
      with_os (set_fs (insert path (Fifo true written))) s
  | _ => s
  end.

Definition server_closes_fifo (path : string) (s : St) : St :=
  match fs (os s) !! path with
  | Some (Fifo _ written) =>
      with_os (set_fs (insert path (Fifo false written))) s
  | _ => s
  end.

Definition reaped (p : Z) (s : St) : St :=
  with_os (set_procs (delete p)) s.

Definition pipe_removed (path : string) (s : St) : St :=
  with_os (set_fs (delete path)) s.

Definition deny (path : string) (s : St) : St :=
  with_os (fun w =>
    {| search_path := search_path w; fs := fs w;
       denied := {[path]} ∪ denied w; procs := procs w;
       fork_ok := fork_ok w; next_pid := next_pid w;
       own_pgid := own_pgid w |}) s.

(** A manager constructed on [host], once the server reads its FIFO. *)
Definition connected_manager : St :=
  server_opens_fifo indi_fifo (snd (construct indi_fifo host)).

(** The same manager after its server process has exited by itself and
    has been waited for. *)
Definition orphaned_manager : St :=
  reaped 4242 (server_closes_fifo indi_fifo connected_manager).

(** The manager after [stop()], once the terminated child has been waited
    for. *)
Definition stopped_manager : St := reaped 4242 (snd (stop connected_manager)).

(** The connected manager when its pipe has been removed from under it and
    nothing can be created at that path. *)
Definition sealed_manager : St :=
  deny indi_fifo (pipe_removed indi_fifo connected_manager).

End Indi.


(** ** panoptes/observatory.py *)

Module Obs.

(** [repr(v)] and [str(v)], the latter being what [format] puts in place
    of a pair of braces.  Quotes inside strings are not escaped. *)
Fixpoint py_repr (v : PyVal) : string :=
  match v with
  | PyNone => "None"
  | PyBool true => "True"
  | PyBool false => "False"
  | PyInt z => pretty z
  | PyFloat r => r
  | PyStr s => "'" +:+ s +:+ "'"
  | PyList l => "[" +:+ join ", " (map py_repr l) +:+ "]"
  | PyDict d =>
      "{" +:+ join ", "
        (map (fun kv => "'" +:+ fst kv +:+ "': " +:+ py_repr (snd kv)) d)
      +:+ "}"
  | PyQuantity x u => py_repr x +:+ " " +:+ u
  end.

Definition py_str (v : PyVal) : string :=
  match v with
  | PyStr s => s
  | _ => py_repr v
  end.

(** [v.get(key, default)]: only a dict has the method. *)
Definition py_get (v : PyVal) (key : string) (default : PyVal) : res PyVal :=
  match v with
  | PyDict d => Ret (dict_get d key default)
  | _ => Raise (AttributeError "get")
  end.

(** The items [for x in v] visits: the elements of a list, the keys of a
    dict, the characters of a string. *)
Fixpoint chars (s : string) : list PyVal :=
  match s with
  | EmptyString => []
  | String c s' => PyStr (String c EmptyString) :: chars s'
  end.

Definition py_iter (v : PyVal) : res (list PyVal) :=
  match v with
  | PyList l => Ret l
  | PyDict d => Ret (map (fun kv => PyStr (fst kv)) d)
  | PyStr s => Ret (chars s)
  | _ => Raise (TypeError "object is not iterable")
  end.

Definition is_None (v : PyVal) : bool :=
  match v with PyNone => true | _ => false end.

(** [os.path.join] of POSIX, on strings. *)
Fixpoint ends_with_slash (s : string) : bool :=
  match s with
  | EmptyString => false
  | String c EmptyString => Ascii.eqb c (Ascii.ascii_of_nat 47)
  | String _ s' => ends_with_slash s'
  end.

Definition join2 (path b : string) : string :=
  if String.prefix "/" b then b
  else if String.eqb path EmptyString || ends_with_slash path then path +:+ b
  else path +:+ "/" +:+ b.

Definition os_path_join (a b c : PyVal) : res string :=
  match a, b, c with
  | PyStr a, PyStr b, PyStr c => Ret (join2 (join2 a b) c)
  | _, _, _ => Raise (TypeError "join() argument must be str or bytes")
  end.

(** The subsystem objects the observatory holds; it only stores them. *)
Inductive Handle : Type :=
  | MountObj (module : string) (config location : dict)
  | CameraObj (module : string) (config : PyVal).

Inductive Sched : Type :=
  | SchedulerObj (target_list_file : string) (location : dict).

(** The instance attributes of [Observatory]. *)
Record Observatory : Type := {
  config : dict;
  location : dict;
  mount : option Handle;
  cameras : list Handle;
  scheduler : option Sched
}.

(** What the class gets from outside the two files: astropy's product of
    a value and a unit, the module loader of [panoptes.utils], the classes
    the loaded modules provide, the file system, and the scheduler. *)
Record Env : Type := {
  times_unit : PyVal -> string -> res PyVal;
  load_module : string -> res string;
  new_Mount : string -> dict -> dict -> res Handle;
  new_Camera : string -> PyVal -> res Handle;
  path_exists : string -> bool;
  new_Scheduler : string -> dict -> res Sched;
  next_target : Sched -> Observatory -> res PyVal
}.

Record St : Type := { obj : Observatory; logged : list (level * string) }.

Definition blank : St :=
  {| obj := {| config := []; location := []; mount := None; cameras := [];
               scheduler := None |};
     logged := [] |}.

Definition log (l : level) (msg : string) : M St unit :=
  modify (fun s => {| obj := obj s; logged := logged s ++ [(l, msg)] |}).

Definition attr {A} (f : Observatory -> A) : M St A :=
  fun s => (Ret (f (obj s)), s).

Definition with_obj (f : Observatory -> Observatory) : M St unit :=
  modify (fun s => {| obj := f (obj s); logged := logged s |}).

Definition set_config (v : dict) : M St unit :=
  with_obj (fun o =>
    {| config := v; location := location o; mount := mount o;
       cameras := cameras o; scheduler := scheduler o |}).

Definition set_location (v : dict) : M St unit :=
  with_obj (fun o =>
    {| config := config o; location := v; mount := mount o;
       cameras := cameras o; scheduler := scheduler o |}).

Definition set_mount (v : option Handle) : M St unit :=
  with_obj (fun o =>
    {| config := config o; location := location o; mount := v;
       cameras := cameras o; scheduler := scheduler o |}).

Definition set_cameras (v : list Handle) : M St unit :=
  with_obj (fun o =>
    {| config := config o; location := location o; mount := mount o;
       cameras := v; scheduler := scheduler o |}).

Definition set_scheduler (v : option Sched) : M St unit :=
  with_obj (fun o =>
    {| config := config o; location := location o; mount := mount o;
       cameras := cameras o; scheduler := v |}).

Section Methods.

Context (E : Env).

(** [get_target(self)] *)
Definition get_target : M St PyVal :=
  log DEBUG "Getting target for observatory" ;;;
  let! sched := attr scheduler in
  let! target :=
    match sched with
    | None => raise (AttributeError "get_target")
    | Some sch => let! o := attr id in lift (next_target E sch o)
    end in
  log DEBUG ("Got target for observatory: " +:+ py_str target) ;;;
  ret target.

(** [_setup_location(self)] *)
Definition _setup_location : M St unit :=
  log INFO "Setting up site details of observatory" ;;;
  let! cfg := attr config in
  if dict_contains cfg "location" then
    let config_site := dict_get cfg "location" PyNone in
    let! name := lift (py_get config_site "name" (PyStr "Nameless Location")) in
    let! v := lift (py_get config_site "latitude" PyNone) in
    let! latitude := lift (times_unit E v "degree") in
    let! v := lift (py_get config_site "longitude" PyNone) in
    let! longitude := lift (times_unit E v "degree") in
    let! timezone := lift (py_get config_site "timezone" PyNone) in
    let! v := lift (py_get config_site "pressure" (PyFloat "0.68")) in
    let! pressure := lift (times_unit E v "bar") in
    let! v := lift (py_get config_site "elevation" (PyInt 0)) in
    let! elevation := lift (times_unit E v "meter") in
    let! v := lift (py_get config_site "horizon" (PyInt 0)) in
    let! horizon := lift (times_unit E v "degree") in
    let loc := [("name", name); ("latitude", latitude);
                ("longitude", longitude); ("elevation", elevation);
                ("timezone", timezone); ("pressure", pressure);
                ("horizon", horizon)] in
    set_location loc ;;;
    log DEBUG ("location set: " +:+ py_str (PyDict loc))
  else raise (error_Error "Bad site information").

(** [_create_mount(self, mount_info=None)] *)
Definition _create_mount (mount_info : PyVal) : M St unit :=
  let! cfg := attr config in
  let mount_info :=
    if is_None mount_info then dict_get cfg "mount" PyNone else mount_info in
  let! model := lift (py_get mount_info "model" PyNone) in
  log INFO ("Creating mount: " +:+ py_str model) ;;;
  let! module := lift (load_module E ("panoptes.mount." +:+ py_str model)) in
  let! loc := attr location in
  let! m := lift (new_Mount E module cfg loc) in
  set_mount (Some m) ;;;
  log INFO "Mount created".

(** The loop of [_create_cameras]: [cameras] is the list built so far. *)
Fixpoint create_each (items : list PyVal) (cameras : list Handle)
  : M St (list Handle) :=
  match items with
  | [] => ret cameras
  | camera :: rest =>
      let! camera_model := lift (py_get camera "model" PyNone) in
      log INFO ("Creating camera: " +:+ py_str camera_model) ;;;
      let! cameras :=
        try_except
          (let! module :=
             lift (load_module E
                     ("panoptes.camera." +:+ py_str camera_model)) in
           let! c := lift (new_Camera E module camera) in
           ret (cameras ++ [c]))
          (fun err =>
             if is_ImportError err then raise (error_NotFound camera_model)
             else raise err) in
      create_each rest cameras
  end.

(** [_create_cameras(self, camera_info=None)] *)
Definition _create_cameras (camera_info : PyVal) : M St unit :=
  let! cfg := attr config in
  let camera_info := dict_get cfg "cameras" PyNone in
  let camera_info :=
    if is_None camera_info then dict_get cfg "mount" PyNone
    else camera_info in
  log DEBUG ("Camera config: " +:+ NL +:+ " " +:+ py_str camera_info) ;;;
  let! items := lift (py_iter camera_info) in
  let! cameras := create_each items [] in
  set_cameras cameras ;;;
  log INFO "Cameras created.".

(** [_create_scheduler(self)] *)
Definition _create_scheduler : M St unit :=
  let! cfg := attr config in
  let! targets_path :=
    lift (os_path_join (dict_get cfg "base_dir" PyNone)
            (PyStr "resources/conf_files/targets/")
            (dict_get cfg "targets_file" PyNone)) in
  if path_exists E targets_path then
    log INFO ("Creating scheduler: " +:+ targets_path) ;;;
    let! loc := attr location in
    let! sch := lift (new_Scheduler E targets_path loc) in
    set_scheduler (Some sch) ;;;
    log INFO "Scheduler created"
  else log WARNING ("Targets file does not exist: " +:+ targets_path).

(** [__init__(self, config=None)] *)
Definition __init__ (config : option dict) : M St unit :=
  match config with
  | None =>
      log WARNING "Config not set for observatory" ;;; raise AssertionError
  | Some cfg =>
      set_config cfg ;;;
      log INFO "Initializing observatory" ;;;
      log INFO (TAB +:+ " Setting up observatory details") ;;;
      set_location [] ;;;
      _setup_location ;;;
      set_mount None ;;;
      set_cameras [] ;;;
      set_scheduler None ;;;
      _create_mount PyNone ;;;
      _create_cameras PyNone ;;;
      _create_scheduler
  end.

(** [Observatory(config)]: [__init__] on a fresh object. *)
Definition construct (config : option dict) : res unit * St :=
  __init__ config blank.

End Methods.

(** What one round of the loop of [_create_cameras] makes of an entry. *)
Definition camera_of (E : Env) (camera : PyVal) : res Handle :=
  match py_get camera "model" PyNone with
  | Ret camera_model =>
      match load_module E ("panoptes.camera." +:+ py_str camera_model) with
      | Ret module => new_Camera E module camera
      | Raise e => Raise e
      | Blocked => Blocked
      end
  | Raise e => Raise e
  | Blocked => Blocked
  end.

(** The part of [__init__] that comes before the scheduler is set up. *)
Definition before_scheduler (E : Env) (cfg : dict) : M St unit :=
  set_config cfg ;;;
  log INFO "Initializing observatory" ;;;
  log INFO (TAB +:+ " Setting up observatory details") ;;;
  set_location [] ;;;
  _setup_location E ;;;
  set_mount None ;;;
  set_cameras [] ;;;
  set_scheduler None ;;;
  _create_mount E PyNone ;;;
  _create_cameras E PyNone.

(** The value [_create_cameras] ends up working on, whatever it was
    called with. *)
Definition chosen_camera_info (cfg : dict) : PyVal :=
  let camera_info := dict_get cfg "cameras" PyNone in
  if is_None camera_info then dict_get cfg "mount" PyNone else camera_info.

(** A method that leaves a field of the object as it found it. *)
Definition preserves {A B} (f : Observatory -> B) (m : M St A) : Prop :=
  forall s, f (obj (snd (m s))) = f (obj s).

(** The state with another configuration. *)
Definition reconfigured (cfg : dict) (s : St) : St :=
  snd (set_config cfg s).

(** *** A sample installation and sample configurations *)

(** Numbers times a unit make a quantity; anything else is refused, the
    way astropy refuses [None]. *)
Definition sample_times (v : PyVal) (u : string) : res PyVal :=
  match v with
  | PyInt _ | PyFloat _ => Ret (PyQuantity v u)
  | _ => Raise (TypeError "unsupported operand type(s) for *")
  end.

(** Only the simulator modules are installed. *)
Definition installed (name : string) : res string :=
  if String.eqb name "panoptes.mount.simulator"
     || String.eqb name "panoptes.camera.simulator"
  then Ret name
  else Raise (ImportError name).

(** No targets file is on disk. *)
Definition sample_env : Env :=
  {| times_unit := sample_times;
     load_module := installed;
     new_Mount := fun m c l => Ret (MountObj m c l);
     new_Camera := fun m c => Ret (CameraObj m c);
     path_exists := fun _ => false;
     new_Scheduler := fun f l => Ret (SchedulerObj f l);
     next_target := fun _ _ => Ret (PyStr "M42") |}.

Definition site : dict :=
  [("name", PyStr "Mauna Loa Observatory");
   ("latitude", PyFloat "19.54");
   ("longitude", PyFloat "-155.58");
   ("timezone", PyStr "US/Hawaii")].

Definition simulator : PyVal := PyDict [("model", PyStr "simulator")].
Definition bogus : PyVal := PyDict [("model", PyStr "bogus")].

Definition rest_of_config : dict :=
  [("mount", simulator);
   ("cameras", PyList [simulator]);
   ("base_dir", PyStr "/var/panoptes/POCS");
   ("targets_file", PyStr "default_targets.yaml")].

Definition cfg_good : dict := ("location", PyDict site) :: rest_of_config.



(** Location data with a field missing, or not a mapping at all. *)
Definition cfg_no_timezone : dict :=
  ("location", PyDict [("latitude", PyFloat "19.54");
                       ("longitude", PyFloat "-155.58")])
  :: rest_of_config.

Definition cfg_no_latitude : dict :=
  ("location", PyDict [("longitude", PyFloat "-155.58");
                       ("timezone", PyStr "US/Hawaii")])
  :: rest_of_config.

Definition cfg_null_location : dict := ("location", PyNone) :: rest_of_config.

Definition cfg_no_location : dict := rest_of_config.

Definition cfg_no_cameras : dict :=
  [("location", PyDict site);
   ("mount", simulator);
   ("base_dir", PyStr "/var/panoptes/POCS");
   ("targets_file", PyStr "default_targets.yaml")].

End Obs.

(** ** Vocabulary for the further properties *)

Module IndiLines.

Import Indi.

(** The options [start] gives the server when it is called without any. *)
Definition default_opts (fifo : string) : list string :=
  ["-m"; "100"; "-f"; fifo].

(** The command line [start] runs. *)
Definition server_argv (exe fifo : string) (args : list string)
  : list string :=
  exe :: match args with [] => default_opts fifo | _ => args end.

(** The line of an unload, as one string. *)
Definition unload_line (name : option string) (driver : string) : string :=
  "stop " +:+ driver +:+ " " +:+ quoted name +:+ " " +:+ NL.

(** One load after the other, with nothing caught in between. *)
Fixpoint load_each (devices : list (string * string)) : M St unit :=
  match devices with
  | [] => ret tt
  | (dev_name, dev_driver) :: rest =>
      load_driver (Some dev_name) dev_driver ;;; load_each rest
  end.

(** The state of the system after a [stop] that goes through: the child
    has been sent SIGTERM when its process group is not 0, and nothing is
    left at the pipe's path. *)
Definition os_after_stop (p : Popen) (pr : process) (f : string) (w : OS)
  : OS :=
  {| search_path := search_path w;
     fs := delete f (fs w);
     denied := denied w;
     procs := if pgid pr =? 0 then procs w
              else <[pid p := {| pgid := pgid pr; argv := argv pr;
                                  sigterm := true |}]> (procs w);
     fork_ok := fork_ok w;
     next_pid := next_pid w;
     own_pgid := own_pgid w |}.

End IndiLines.

Module ObsWords.

Import Obs.

(** The keys of [self.location], in the order the code writes them. *)
Definition location_keys : list string :=
  ["name"; "latitude"; "longitude"; "elevation"; "timezone"; "pressure";
   "horizon"].

(** The mount description [_create_mount] works on. *)
Definition chosen_mount_info (cfg : dict) (mount_info : PyVal) : PyVal :=
  if is_None mount_info then dict_get cfg "mount" PyNone else mount_info.

(** The path of the targets file. *)
Definition targets_path (base tf : string) : string :=
  join2 (join2 base "resources/conf_files/targets/") tf.

(** The sample installation with every file on disk. *)
Definition stocked_env : Env :=
  {| times_unit := sample_times;
     load_module := installed;
     new_Mount := fun m c l => Ret (MountObj m c l);
     new_Camera := fun m c => Ret (CameraObj m c);
     path_exists := fun _ => true;
     new_Scheduler := fun f l => Ret (SchedulerObj f l);
     next_target := fun _ _ => Ret (PyStr "M42") |}.

(** The sample installation with camera classes that cannot reach their
    device. *)
Definition unplugged_env : Env :=
  {| times_unit := sample_times;
     load_module := installed;
     new_Mount := fun m c l => Ret (MountObj m c l);
     new_Camera := fun m c => Raise (OtherException "USBError");
     path_exists := fun _ => false;
     new_Scheduler := fun f l => Ret (SchedulerObj f l);
     next_target := fun _ _ => Ret (PyStr "M42") |}.

(** A configuration whose second camera is a bare model name, and one
    whose targets file is given by an absolute path. *)
Definition cfg_bare_camera : dict :=
  [("location", PyDict site);
   ("mount", simulator);
   ("cameras", PyList [simulator; PyStr "simulator"]);
   ("base_dir", PyStr "/var/panoptes/POCS");
   ("targets_file", PyStr "default_targets.yaml")].

Definition cfg_absolute_targets : dict :=
  [("location", PyDict site);
   ("mount", simulator);
   ("cameras", PyList [simulator]);
   ("base_dir", PyStr "/var/panoptes/POCS");
   ("targets_file", PyStr "/etc/panoptes/targets.yaml")].

End ObsWords.

(** ** Properties of the server manager *)

Module IndiFacts.

Import Indi.

Ltac run :=
  unfold __del__, stop, is_connected, load_driver, _write_to_server,
    skipping, open_write, terminate, os_getpgid, os_unlink, os_mkfifo,
    os_path_exists, proc_entry_exists, set_connected, set_proc, set_fifo,
    getattr, log, modify, bind, try_except, ret, raise; simpl.

Ltac decide_all :=
  repeat first
    [ rewrite bool_decide_true by eauto
    | rewrite bool_decide_false
        by first [ assumption | intros [? ?]; discriminate ] ];
  simpl.


(** One call of [stop] on an object that holds a process handle whose pid
    the process table still has, when the pipe may be removed: it returns,
    the pipe is gone, and the entry of the process table stays. *)
Lemma stop_with_entry (s : St) (p : Popen) (pr : process) (f : string) :
  _proc (self s) = Some p ->
  procs (os s) !! pid p = Some pr ->
  _fifo (self s) = Some f ->
  f ∉ denied (os s) ->
  exists s',
    stop s = (Ret tt, s')
    /\ self s' = self s
    /\ fs (os s') = delete f (fs (os s))
    /\ denied (os s') = denied (os s)
    /\ is_Some (procs (os s') !! pid p).
Proof.
  destruct s as [[i fi pp c] w l]. simpl. intros -> Hpr -> Hd.
  run. rewrite Hpr. simpl.
  destruct (pgid pr =? 0) eqn:Hg; simpl; rewrite ?Hpr; simpl;
    destruct (fs w !! f) as [n|] eqn:Hfs; simpl; decide_all;
    (eexists; split; [reflexivity|]); simpl;
    rewrite ?lookup_insert_eq, ?Hpr; try rewrite delete_id by assumption;
    eauto.
Qed.

(** Hence two calls in a row go through as well, and leave no pipe. *)
Lemma stop_twice_with_entry (s : St) (p : Popen) (pr : process) (f : string) :
  _proc (self s) = Some p ->
  procs (os s) !! pid p = Some pr ->
  _fifo (self s) = Some f ->
  f ∉ denied (os s) ->
  fst ((stop ;;; stop) s) = Ret tt
  /\ fs (os (snd ((stop ;;; stop) s))) !! f = None.
Proof.
  intros Hp Hpr Hf Hd.
  destruct (stop_with_entry s p pr f Hp Hpr Hf Hd)
    as (s1 & E1 & Hself & Hfs & Hden & [pr1 Hpr1]).
  destruct (stop_with_entry s1 p pr1 f) as (s2 & E2 & _ & Hfs2 & _ & _).
  - congruence.
  - assumption.
  - congruence.
  - congruence.
  - assert (E : (stop ;;; stop) s = (Ret tt, s2))
      by (unfold bind at 1; rewrite E1; exact E2).
    rewrite E. simpl. split; [reflexivity|].
    rewrite Hfs2. apply lookup_delete_eq.
Qed.


(** Without a process handle, [is_connected] raises from inside its own
    handler. *)
Lemma is_connected_without_handle (s : St) :
  _proc (self s) = None ->
  fst (is_connected s) = Raise (AttributeError "_proc").
Proof.
  intros Hp. run. rewrite Hp. simpl. rewrite Hp. reflexivity.
Qed.

(** What [_write_to_server] does on an object that holds a process handle
    and a FIFO path: the object is left as it was, and the outcome is the
    one of the write alone. *)
Lemma write_outcome (s : St) (cmd : list string) (p : Popen) (f : string) :
  _proc (self s) = Some p ->
  (pid p =? 0) = false ->
  _fifo (self s) = Some f ->
  String.eqb f EmptyString = false ->
  self (snd (_write_to_server cmd s)) = self s
  /\ fst (_write_to_server cmd s)
     = match fs (os s) !! f with
       | Some (Fifo true _) | Some (Regular _) => Ret tt
       | Some (Fifo false _) => Blocked
       | None =>
           if bool_decide (f ∈ denied (os s)) then
             Raise (error_PanError "Problem writing to FIFO: EACCES")
           else Ret tt
       end.
Proof.
  destruct s as [[i fi pp c] w l]. simpl. intros -> Hpid -> Hf.
  run. rewrite Hpid. simpl. rewrite Hf. simpl.
  destruct (fs w !! f) as [[[] wr|ct]|] eqn:Hfs; simpl; auto.
  destruct (bool_decide (f ∈ denied w)); simpl; auto.
Qed.

(** No failure of [load_driver] is an [InvalidCommand]. *)
Lemma load_driver_never_InvalidCommand
  (name : option string) (driver : string) (s : St) (e : exn) :
  fst (load_driver name driver s) = Raise e -> is_InvalidCommand e = false.
Proof.
  destruct s as [[i fi pp c] w l]. run.
  destruct pp as [p|]; simpl; [|intros [= <-]; reflexivity].
  destruct (pid p =? 0); simpl; [intros [= <-]; reflexivity|].
  destruct fi as [f|]; simpl; [|intros [= <-]; reflexivity].
  destruct (String.eqb f EmptyString); simpl; [intros [= <-]; reflexivity|].
  destruct (fs w !! f) as [[[] wr|ct]|] eqn:Hfs; simpl; try discriminate.
  destruct (bool_decide (f ∈ denied w)); simpl; try discriminate.
  intros [= <-]. reflexivity.
Qed.

(** A device whose load returns lets the loop go on. *)
Lemma load_drivers_cons_ok (n d : string) (rest : list (string * string))
  (s s1 : St) :
  load_driver (Some n) d s = (Ret tt, s1) ->
  load_drivers ((n, d) :: rest) s = load_drivers rest s1.
Proof.
  intros H. simpl. unfold skipping, bind, try_except. rewrite H. reflexivity.
Qed.

(** A device whose load fails stops it. *)
Lemma load_drivers_cons_raise (n d : string) (rest : list (string * string))
  (s s1 : St) (e : exn) :
  load_driver (Some n) d s = (Raise e, s1) ->
  load_drivers ((n, d) :: rest) s = (Raise e, s1).
Proof.
  intros H. simpl. unfold skipping, bind, try_except. rewrite H.
  rewrite (load_driver_never_InvalidCommand (Some n) d s e)
    by (rewrite H; reflexivity).
  reflexivity.
Qed.

Lemma load_drivers_cons_blocked (n d : string) (rest : list (string * string))
  (s s1 : St) :
  load_driver (Some n) d s = (Blocked, s1) ->
  load_drivers ((n, d) :: rest) s = (Blocked, s1).
Proof.
  intros H. simpl. unfold skipping, bind, try_except. rewrite H. reflexivity.
Qed.

(** The loop over a prefix that loads, then the rest. *)
Lemma load_drivers_app (pre post : list (string * string)) (s s1 : St) :
  load_drivers pre s = (Ret tt, s1) ->
  load_drivers (pre ++ post) s = load_drivers post s1.
Proof.
  revert s. induction pre as [|[n d] pre IH]; intros s H.
  - simpl in H. unfold ret in H. injection H as <-. reflexivity.
  - simpl app.
    destruct (load_driver (Some n) d s) as [[[]|e|] s0] eqn:E.
    + rewrite (load_drivers_cons_ok n d pre s s0 E) in H.
      rewrite (load_drivers_cons_ok n d (pre ++ post) s s0 E). auto.
    + rewrite (load_drivers_cons_raise n d pre s s0 e E) in H. discriminate.
    + rewrite (load_drivers_cons_blocked n d pre s s0 E) in H. discriminate.
Qed.

Ltac close_iff :=
  split;
  [ let H := fresh in
    intros H; try discriminate H; repeat split; eauto; try discriminate
  | intros (? & ? & ?); try reflexivity; try discriminate;
    try (exfalso; eauto; fail);
    try (exfalso; match goal with H : _ -> _ ∉ _ |- _ => apply H end;
         solve [auto]) ].

(** Construction returns exactly when the executable is found, the pipe
    is there or can be made, and the process can be created. *)
Lemma construct_returns_iff (fifo : string) (w : OS) :
  fst (construct fifo w) = Ret tt
  <-> is_Some (search_path w !! "indiserver")
      /\ fork_ok w = true
      /\ (fs w !! fifo = None -> fifo ∉ denied w).
Proof.
  unfold construct, __init__, start, shutil_which, set_indiserver,
    subprocess_Popen.
  run.
  destruct (search_path w !! "indiserver") as [exe|] eqn:Hw; simpl.
  2: { split; [discriminate|]. intros [[? ?] _]. discriminate. }
  destruct (fs w !! fifo) as [n|] eqn:Hfs; simpl; rewrite ?Hfs; simpl.
  - destruct (fork_ok w); simpl; close_iff.
  - destruct (decide (fifo ∈ denied w)) as [Hd|Hd].
    + rewrite bool_decide_true by assumption. simpl. close_iff.
    + rewrite bool_decide_false by assumption. simpl.
      destruct (fork_ok w); simpl; close_iff.
Qed.

Lemma string_app_nil (b : string) : EmptyString +:+ b = b.
Proof. reflexivity. Qed.

Lemma string_app_cons (x : Ascii.ascii) (a b : string) :
  String x a +:+ b = String x (a +:+ b).
Proof. reflexivity. Qed.

Lemma string_app_assoc (a b c : string) : (a +:+ b) +:+ c = a +:+ b +:+ c.
Proof.
  induction a as [|x a IH]; [reflexivity|].
  rewrite !string_app_cons. f_equal. exact IH.
Qed.

(** The space-joined tokens of a load with a device name are that line. *)
Lemma join_load_cmd (name driver : string) :
  String.eqb name EmptyString = false ->
  join " " (load_cmd (Some name) driver) = load_line name driver.
Proof.
  intros Hn. unfold load_cmd, truthy, load_line, quoted. rewrite Hn.
  cbn [negb app join]. unfold DQ, NL.
  repeat rewrite ?string_app_assoc, ?string_app_cons, ?string_app_nil.
  reflexivity.
Qed.

(** A connected load with a device name puts exactly [load_line] through
    the pipe, as one write. *)
Lemma named_load_written (s : St) (name driver : string) (p : Popen)
  (f : string) (written : list string) :
  _proc (self s) = Some p ->
  (pid p =? 0) = false ->
  _fifo (self s) = Some f ->
  String.eqb f EmptyString = false ->
  String.eqb name EmptyString = false ->
  fs (os s) !! f = Some (Fifo true written) ->
  fst (load_driver (Some name) driver s) = Ret tt
  /\ fs (os (snd (load_driver (Some name) driver s))) !! f
     = Some (Fifo true (written ++ [load_line name driver])).
Proof.
  destruct s as [[i fi pp c] w l]. simpl. intros -> Hpid -> Hf Hn Hfs.
  rewrite <- (join_load_cmd name driver Hn). unfold load_driver.
  generalize (load_cmd (Some name) driver). intros cmd.
  run. rewrite Hpid. simpl. rewrite Hf. simpl. rewrite Hfs. simpl.
  split; [reflexivity|]. rewrite lookup_insert_eq. reflexivity.
Qed.

(** C3 (code as it is): [stop] is not safe to repeat.  On a stopped handle
    whose terminated child has been waited for, the second call raises
    from [os.getpgid]; when the server went away by itself, the first call
    already raises and the pipe stays on disk; and on the object a failed
    construction leaves behind, the finaliser's [stop] raises for want of
    a process handle, the pipe that [start] made staying on disk. *)
Theorem stop_raises_once_server_is_gone :
  fst (stop connected_manager) = Ret tt
  /\ fst (stop stopped_manager) = Raise (OSError "ESRCH")
  /\ fst ((stop ;;; stop) orphaned_manager) = Raise (OSError "ESRCH")
  /\ fs (os (snd ((stop ;;; stop) orphaned_manager))) !! indi_fifo
     = Some (Fifo false [])
  /\ fst (__del__ (snd (construct indi_fifo host_no_fork)))
     = Raise (AttributeError "_proc")
  /\ fs (os (snd (__del__ (snd (construct indi_fifo host_no_fork)))))
       !! indi_fifo
     = Some (Fifo false []).
Proof. vm_compute. repeat split; reflexivity. Qed.

(** C7 (code as it is): a failure of [start] during construction is
    caught and logged as a warning, but construction then reads the
    process handle that was never assigned, so an [AttributeError] escapes
    to the caller, both when the pipe cannot be made and when the process
    cannot be created. *)
Theorem construct_raises_when_start_fails :
  fst (construct indi_fifo host_no_fifo) = Raise (AttributeError "_proc")
  /\ map fst (logged (snd (construct indi_fifo host_no_fifo))) = [WARNING]
  /\ fst (construct indi_fifo host_no_fork) = Raise (AttributeError "_proc")
  /\ map fst (logged (snd (construct indi_fifo host_no_fork)))
     = [DEBUG; WARNING].
Proof. vm_compute. repeat split; reflexivity. Qed.


(** C4, as stated, fails: on a manager that is not connected (its server
    is gone and its pipe removed), a load does not fail at all; it returns
    after leaving the command in a regular file at the pipe's path.  When
    the pipe is still there without a reader, the call blocks. *)
Lemma unconnected_load_does_not_fail :
  fst (is_connected stopped_manager) = Ret false
  /\ fst (load_driver (Some "cam0") "indi_simulator_ccd" stopped_manager)
     = Ret tt
  /\ fs (os (snd (load_driver (Some "cam0") "indi_simulator_ccd"
                    stopped_manager))) !! indi_fifo
     = Some (Regular (load_line "cam0" "indi_simulator_ccd"))
  /\ fst (is_connected orphaned_manager) = Ret false
  /\ fst (load_driver (Some "cam0") "indi_simulator_ccd" orphaned_manager)
     = Blocked.
Proof. vm_compute. repeat split; reflexivity. Qed.

(** C4 (amended): [load_driver] makes no connectivity check.  On every
    manager that holds a process handle and a pipe path, connected or not,
    the call leaves the manager object as it was and its outcome is the
    one of the write to the pipe's path: it returns when the write goes
    through, blocks on a pipe without a reader, and fails with [PanError]
    when the write fails; it never fails for not being connected. *)
Theorem load_driver_outcome_is_the_write
  (s : St) (name : option string) (driver : string) (p : Popen)
  (f : string) :
  _proc (self s) = Some p ->
  (pid p =? 0) = false ->
  _fifo (self s) = Some f ->
  String.eqb f EmptyString = false ->
  self (snd (load_driver name driver s)) = self s
  /\ fst (load_driver name driver s)
     = match fs (os s) !! f with
       | Some (Fifo true _) | Some (Regular _) => Ret tt
       | Some (Fifo false _) => Blocked
       | None =>
           if bool_decide (f ∈ denied (os s)) then
             Raise (error_PanError "Problem writing to FIFO: EACCES")
           else Ret tt
       end.
Proof.
  intros Hp Hpid Hf Hne.
  pose (s0 := snd (log DEBUG "Loading driver" s)).
  destruct (write_outcome s0 (load_cmd name driver) p f) as [H1 H2];
    try assumption.
  change (load_driver name driver s)
    with (_write_to_server (load_cmd name driver) s0).
  split; [exact H1|exact H2].
Qed.

Lemma load_driver_outcome_is_the_write_witness :
  self (snd (load_driver (Some "cam0") "indi_simulator_ccd" stopped_manager))
  = self stopped_manager
  /\ fst (load_driver (Some "cam0") "indi_simulator_ccd" stopped_manager)
     = match fs (os stopped_manager) !! indi_fifo with
       | Some (Fifo true _) | Some (Regular _) => Ret tt
       | Some (Fifo false _) => Blocked
       | None =>
           if bool_decide (indi_fifo ∈ denied (os stopped_manager)) then
             Raise (error_PanError "Problem writing to FIFO: EACCES")
           else Ret tt
       end.
Proof.
  apply (load_driver_outcome_is_the_write stopped_manager (Some "cam0")
           "indi_simulator_ccd" {| pid := 4242 |} indi_fifo);
    vm_compute; reflexivity.
Defined.

(** C5 (code as it is): the newline token is appended together with the
    device name only.  A connected load with a device name writes the
    line of the design, newline included, in one write; a connected load
    without one ([None] or the empty string) writes [start <driver>] with
    no newline after it, while an unload always ends in the newline
    token. *)
Theorem nameless_load_has_no_newline :
  fs (os (snd (load_driver (Some "cam0") "indi_simulator_ccd"
                 connected_manager))) !! indi_fifo
  = Some (Fifo true ["start indi_simulator_ccd -n " +:+ DQ +:+ "cam0"
                       +:+ DQ +:+ " " +:+ NL])
  /\ fs (os (snd (load_driver None "indi_simulator_ccd" connected_manager)))
       !! indi_fifo
     = Some (Fifo true ["start indi_simulator_ccd"])
  /\ fs (os (snd (load_driver (Some EmptyString) "indi_simulator_ccd"
                    connected_manager))) !! indi_fifo
     = Some (Fifo true ["start indi_simulator_ccd"])
  /\ last (load_cmd None "indi_simulator_ccd") = Some "indi_simulator_ccd"
  /\ last (unload_cmd None "indi_simulator_ccd") = Some NL.
Proof. vm_compute. repeat split; reflexivity. Qed.

(** C6, as stated, fails: on a connected manager, when the write for the
    first device fails, the [PanError] it raises is not caught by
    [load_drivers]; the call raises and the second device is never tried
    (one load was logged, nothing is at the pipe's path). *)
Lemma load_drivers_aborts_on_write_failure :
  fst (is_connected sealed_manager) = Ret true
  /\ fst (load_drivers [("cam0", "indi_simulator_ccd");
                     ("cam1", "indi_simulator_ccd")] sealed_manager)
     = Raise (error_PanError "Problem writing to FIFO: EACCES")
  /\ length (filter (fun x => snd x = "Loading driver")
       (logged (snd (load_drivers [("cam0", "indi_simulator_ccd");
                                   ("cam1", "indi_simulator_ccd")]
                       sealed_manager)))) = 1%nat
  /\ fs (os (snd (load_drivers [("cam0", "indi_simulator_ccd");
                                ("cam1", "indi_simulator_ccd")]
                    sealed_manager))) !! indi_fifo = None.
Proof. vm_compute. repeat split; reflexivity. Qed.

(** C6 (amended): the loop of [load_drivers] catches, logs and skips a
    per-device failure only when it is an [InvalidCommand].  A transport
    or write failure surfaces as [PanError], which the loop does not
    catch: after the devices that loaded, it propagates out of the batch
    call as it is, and the devices after the failing one are not tried. *)
Theorem load_drivers_write_failure_propagates
  (pre post : list (string * string)) (n d m : string) (s s1 s2 : St) :
  load_drivers pre s = (Ret tt, s1) ->
  load_driver (Some n) d s1 = (Raise (error_PanError m), s2) ->
  load_drivers (pre ++ (n, d) :: post) s = (Raise (error_PanError m), s2)
  /\ (forall (body : M St unit) (msg : string) (s0 s0' : St),
        body s0 = (Raise (error_InvalidCommand msg), s0') ->
        fst (skipping n d body s0) = Ret tt
        /\ map fst (logged (snd (skipping n d body s0)))
           = map fst (logged s0') ++ [WARNING]).
Proof.
  intros Hpre Hload. split.
  - rewrite (load_drivers_app pre ((n, d) :: post) s s1 Hpre).
    apply load_drivers_cons_raise. exact Hload.
  - intros body msg s0 s0' Hbody. unfold skipping, try_except.
    rewrite Hbody. simpl. split; [reflexivity|].
    rewrite map_app. reflexivity.
Qed.

Lemma load_drivers_write_failure_propagates_witness :
  load_drivers ([] ++ ("cam0", "indi_simulator_ccd")
                     :: [("cam1", "indi_simulator_ccd")]) sealed_manager
  = (Raise (error_PanError "Problem writing to FIFO: EACCES"),
     snd (load_driver (Some "cam0") "indi_simulator_ccd" sealed_manager))
  /\ (forall (body : M St unit) (msg : string) (s0 s0' : St),
        body s0 = (Raise (error_InvalidCommand msg), s0') ->
        fst (skipping "cam0" "indi_simulator_ccd" body s0) = Ret tt
        /\ map fst (logged (snd (skipping "cam0" "indi_simulator_ccd"
                                   body s0)))
           = map fst (logged s0') ++ [WARNING]).
Proof.
  apply (load_drivers_write_failure_propagates []
           [("cam1", "indi_simulator_ccd")] "cam0" "indi_simulator_ccd"
           "Problem writing to FIFO: EACCES" sealed_manager sealed_manager);
    vm_compute; reflexivity.
Defined.

End IndiFacts.

(** ** Properties of the observatory *)

Module ObsFacts.

Import Obs.

(** *** Running a sequence step by step *)

Lemma bind_step {S A B} (m : M S A) (k : A -> M S B) (s s1 : S) (a : A) :
  m s = (Ret a, s1) -> bind m k s = k a s1.
Proof. intros H. unfold bind. rewrite H. reflexivity. Qed.

Lemma bind_raise {S A B} (m : M S A) (k : A -> M S B) (s s1 : S) (e : exn) :
  m s = (Raise e, s1) -> bind m k s = (Raise e, s1).
Proof. intros H. unfold bind. rewrite H. reflexivity. Qed.

Lemma bind_returns {S A B} (m : M S A) (k : A -> M S B) (s s' : S) (b : B) :
  bind m k s = (Ret b, s') ->
  exists a s1, m s = (Ret a, s1) /\ k a s1 = (Ret b, s').
Proof.
  unfold bind. destruct (m s) as [[a|e|] s1]; try discriminate. eauto.
Qed.

Lemma bind_assoc {S A B C} (m : M S A) (k : A -> M S B) (h : B -> M S C)
  (s : S) :
  bind (bind m k) h s = bind m (fun a => bind (k a) h) s.
Proof. unfold bind. destruct (m s) as [[a|e|] s1]; reflexivity. Qed.

(** *** Fields that a method leaves alone *)

Section Preservation.

Context {B : Type} (f : Observatory -> B).

Lemma preserves_ret {A} (a : A) : preserves f (ret a).
Proof. intros s. reflexivity. Qed.

Lemma preserves_raise {A} (e : exn) : preserves f (@raise St A e).
Proof. intros s. reflexivity. Qed.

Lemma preserves_lift {A} (r : res A) : preserves f (lift r).
Proof. intros s. reflexivity. Qed.

Lemma preserves_log (l : level) (msg : string) : preserves f (log l msg).
Proof. intros s. reflexivity. Qed.

Lemma preserves_attr {A} (g : Observatory -> A) : preserves f (attr g).
Proof. intros s. reflexivity. Qed.

Lemma preserves_bind {A C} (m : M St A) (k : A -> M St C) :
  preserves f m -> (forall a, preserves f (k a)) -> preserves f (bind m k).
Proof.
  intros Hm Hk s. unfold bind. specialize (Hm s).
  destruct (m s) as [[a|e|] s1]; simpl in *; try assumption.
  rewrite (Hk a s1). assumption.
Qed.

Lemma preserves_try {A} (m : M St A) (h : exn -> M St A) :
  preserves f m -> (forall e, preserves f (h e)) ->
  preserves f (try_except m h).
Proof.
  intros Hm Hh s. unfold try_except. specialize (Hm s).
  destruct (m s) as [[a|e|] s1]; simpl in *; try assumption.
  rewrite (Hh e s1). assumption.
Qed.

Lemma preserves_of_id {A} (m : M St A) : preserves id m -> preserves f m.
Proof. intros H s. specialize (H s). unfold id in H. now rewrite H. Qed.

End Preservation.

Ltac preserved :=
  repeat first
    [ apply preserves_ret | apply preserves_raise | apply preserves_lift
    | apply preserves_log | apply preserves_attr
    | apply preserves_bind; [|intros ?]
    | apply preserves_try; [|intros ?]
    | match goal with
      | |- preserves _ (if ?b then _ else _) => destruct b
      | |- preserves _ (match ?x with _ => _ end) => destruct x
      | |- preserves _ (let _ := _ in _) => cbv zeta
      end
    | (intros ?; reflexivity) ].

Section Facts.

Context (E : Env).

Lemma setup_location_keeps_config : preserves config (_setup_location E).
Proof. unfold _setup_location. preserved. Qed.

Lemma setup_location_keeps_scheduler : preserves scheduler (_setup_location E).
Proof. unfold _setup_location. preserved. Qed.

Lemma create_mount_keeps_config v : preserves config (_create_mount E v).
Proof. unfold _create_mount. preserved. Qed.

Lemma create_mount_keeps_scheduler v : preserves scheduler (_create_mount E v).
Proof. unfold _create_mount. preserved. Qed.

(** The loop only logs: it leaves the whole object alone. *)
Lemma create_each_keeps_obj items acc : preserves id (create_each E items acc).
Proof.
  revert acc. induction items as [|camera rest IH]; intros acc; simpl.
  - preserved.
  - preserved. apply IH.
Qed.

Lemma create_cameras_keeps_config v : preserves config (_create_cameras E v).
Proof.
  unfold _create_cameras. preserved.
  apply preserves_of_id, create_each_keeps_obj.
Qed.

Lemma create_cameras_keeps_scheduler v :
  preserves scheduler (_create_cameras E v).
Proof.
  unfold _create_cameras. preserved.
  apply preserves_of_id, create_each_keeps_obj.
Qed.

(** *** The camera loop *)

(** One round on an entry that resolves appends its camera and logs. *)
Lemma create_each_cons_ok camera h rest acc s :
  camera_of E camera = Ret h ->
  exists s1,
    create_each E (camera :: rest) acc s = create_each E rest (acc ++ [h]) s1
    /\ obj s1 = obj s.
Proof.
  unfold camera_of. intros H.
  destruct (py_get camera "model" PyNone) as [model| |] eqn:Hm;
    try discriminate.
  destruct (load_module E ("panoptes.camera." +:+ py_str model))
    as [module| |] eqn:Hl; try discriminate.
  simpl. unfold bind, try_except, lift, log, modify, ret.
  rewrite Hm. simpl. rewrite Hl. simpl. rewrite H. simpl.
  eexists. split; reflexivity.
Qed.

Lemma create_each_prefix pre hs rest :
  Forall2 (fun c h => camera_of E c = Ret h) pre hs ->
  forall acc s,
  exists s1,
    create_each E (pre ++ rest) acc s = create_each E rest (acc ++ hs) s1
    /\ obj s1 = obj s.
Proof.
  induction 1 as [|c h pre hs Hc _ IH]; intros acc s.
  - exists s. rewrite app_nil_r. split; reflexivity.
  - destruct (create_each_cons_ok c h (pre ++ rest) acc s Hc)
      as (s1 & E1 & O1).
    destruct (IH (acc ++ [h]) s1) as (s2 & E2 & O2).
    exists s2. simpl app. rewrite E1, E2, <- app_assoc. simpl.
    split; [reflexivity|congruence].
Qed.



(** C9 (amended): a configuration without a location entry makes
    construction fail at once with the structured error [Bad site
    information], before any subsystem is built. *)
Theorem missing_location_is_fatal (cfg : dict) :
  dict_contains cfg "location" = false ->
  fst (construct E (Some cfg)) = Raise (error_Error "Bad site information")
  /\ raises_structured (fst (construct E (Some cfg))) = true
  /\ mount (obj (snd (construct E (Some cfg)))) = None
  /\ cameras (obj (snd (construct E (Some cfg)))) = [].
Proof.
  intros H. unfold construct, __init__, _setup_location.
  unfold bind, set_config, set_location, with_obj, log, modify, attr, raise.
  simpl. rewrite H. simpl. repeat split; reflexivity.
Qed.

(** *** Construction up to the scheduler *)

Lemma bind_ext {S A B} (m : M S A) (k k' : A -> M S B) (s : S) :
  (forall a s1, k a s1 = k' a s1) -> bind m k s = bind m k' s.
Proof.
  intros H. unfold bind. destruct (m s) as [[a|e|] s1]; auto.
Qed.

Lemma init_split (cfg : dict) (s : St) :
  __init__ E (Some cfg) s
  = bind (before_scheduler E cfg) (fun _ => _create_scheduler E) s.
Proof.
  unfold __init__, before_scheduler.
  repeat (rewrite bind_assoc; apply bind_ext; intros ? ?).
  reflexivity.
Qed.

(** When the part before the scheduler returns, the object holds the
    configuration it was given and no scheduler. *)
Lemma before_scheduler_returns (cfg : dict) (s s1 : St) :
  before_scheduler E cfg s = (Ret tt, s1) ->
  config (obj s1) = cfg /\ scheduler (obj s1) = None.
Proof.
  unfold before_scheduler. intros H.
  apply bind_returns in H as (? & sa & Ha & H).
  apply bind_returns in H as (? & sb & Hb & H).
  apply bind_returns in H as (? & sc & Hc & H).
  apply bind_returns in H as (? & sd & Hd & H).
  apply bind_returns in H as (? & se & He & H).
  apply bind_returns in H as (? & sf & Hf & H).
  apply bind_returns in H as (? & sg & Hg & H).
  apply bind_returns in H as (? & sh & Hh & H).
  apply bind_returns in H as (? & si & Hi & H).
  pose proof (setup_location_keeps_config sd) as K1.
  pose proof (create_mount_keeps_config PyNone sh) as K2.
  pose proof (create_cameras_keeps_config PyNone si) as K3.
  pose proof (create_mount_keeps_scheduler PyNone sh) as L2.
  pose proof (create_cameras_keeps_scheduler PyNone si) as L3.
  rewrite He in K1. rewrite Hi in K2, L2. rewrite H in K3, L3.
  simpl in *.
  injection Ha as Ha. injection Hb as Hb. injection Hc as Hc.
  injection Hd as Hd. injection Hf as Hf. injection Hg as Hg.
  injection Hh as Hh. subst sa sb sc sd sf sg sh. simpl in *.
  split; congruence.
Qed.

(** With no targets file on disk, setting up the scheduler only logs. *)
Lemma create_scheduler_without_file (base tf : string) (s : St) :
  dict_get (config (obj s)) "base_dir" PyNone = PyStr base ->
  dict_get (config (obj s)) "targets_file" PyNone = PyStr tf ->
  path_exists E (join2 (join2 base "resources/conf_files/targets/") tf)
  = false ->
  fst (_create_scheduler E s) = Ret tt
  /\ obj (snd (_create_scheduler E s)) = obj s.
Proof.
  intros Hb Ht Hp. unfold _create_scheduler, bind, attr, lift. simpl.
  rewrite Hb, Ht. simpl. rewrite Hp. split; reflexivity.
Qed.

(** Without a scheduler, [get_target] fails on the missing attribute of
    [None], and leaves the object as it was. *)
Lemma get_target_without_scheduler (s : St) :
  scheduler (obj s) = None ->
  fst (get_target E s) = Raise (AttributeError "get_target")
  /\ obj (snd (get_target E s)) = obj s.
Proof.
  intros H. unfold get_target, bind, attr, log, modify, raise. simpl.
  rewrite H. split; reflexivity.
Qed.

(** C2 (amended): when the targets file does not exist on disk and the
    set-up of location, mount and cameras has gone through, construction
    returns without raising and without a scheduler; a call of
    [get_target] on the object then fails with the [AttributeError] of
    reading [get_target] off [None], and leaves the object as it was, so
    that every later call fails the same way. *)
Theorem no_targets_file_no_scheduler
  (cfg : dict) (base tf : string) (s1 : St) :
  dict_get cfg "base_dir" PyNone = PyStr base ->
  dict_get cfg "targets_file" PyNone = PyStr tf ->
  path_exists E (join2 (join2 base "resources/conf_files/targets/") tf)
  = false ->
  before_scheduler E cfg blank = (Ret tt, s1) ->
  fst (construct E (Some cfg)) = Ret tt
  /\ scheduler (obj (snd (construct E (Some cfg)))) = None
  /\ fst (get_target E (snd (construct E (Some cfg))))
     = Raise (AttributeError "get_target")
  /\ obj (snd (get_target E (snd (construct E (Some cfg)))))
     = obj (snd (construct E (Some cfg))).
Proof.
  intros Hb Ht Hp Hrun.
  destruct (before_scheduler_returns cfg blank s1 Hrun) as [Hcfg Hsch].
  assert (Hc : construct E (Some cfg) = _create_scheduler E s1).
  { unfold construct. rewrite init_split.
    exact (bind_step _ (fun _ => _create_scheduler E) _ _ tt Hrun). }
  rewrite Hc.
  destruct (create_scheduler_without_file base tf s1) as [R1 R2];
    try (rewrite Hcfg; assumption); try assumption.
  assert (Hnone : scheduler (obj (snd (_create_scheduler E s1))) = None)
    by (rewrite R2; exact Hsch).
  destruct (get_target_without_scheduler _ Hnone) as [G1 G2].
  repeat split; assumption.
Qed.

(** *** The camera list that is used *)




(** The camera list the method works on. *)
Lemma create_cameras_unfold (arg : PyVal) (s : St) :
  _create_cameras E arg s
  = (let info := chosen_camera_info (config (obj s)) in
     log DEBUG ("Camera config: " +:+ NL +:+ " " +:+ py_str info) ;;;
     let! items := lift (py_iter info) in
     let! cameras := create_each E items [] in
     set_cameras cameras ;;; log INFO "Cameras created.") s.
Proof. reflexivity. Qed.



(** With no [cameras] key and a mapping under [mount], the loop visits
    the keys of that mapping, which are strings: the first round fails on
    [camera.get]. *)
Lemma fallback_on_mount_mapping_raises
  (s : St) (arg : PyVal) (k : string) (v : PyVal) (d : dict) :
  dict_lookup (config (obj s)) "cameras" = None ->
  dict_get (config (obj s)) "mount" PyNone = PyDict ((k, v) :: d) ->
  fst (_create_cameras E arg s) = Raise (AttributeError "get").
Proof.
  intros Hnone Hm. rewrite create_cameras_unfold. cbv zeta.
  assert (Hinfo : chosen_camera_info (config (obj s)) = PyDict ((k, v) :: d)).
  { unfold chosen_camera_info, dict_get at 1 3. rewrite Hnone. simpl.
    exact Hm. }
  rewrite Hinfo. reflexivity.
Qed.

End Facts.



(** C2, as stated, fails: with no targets file on disk construction does
    return without a scheduler, but [get_target] then fails with an
    [AttributeError], which is no structured error of the package. *)
Lemma get_target_raises_AttributeError :
  fst (construct sample_env (Some cfg_good)) = Ret tt
  /\ scheduler (obj (snd (construct sample_env (Some cfg_good)))) = None
  /\ fst (get_target sample_env (snd (construct sample_env (Some cfg_good))))
     = Raise (AttributeError "get_target")
  /\ raises_structured
       (fst (get_target sample_env
               (snd (construct sample_env (Some cfg_good))))) = false.
Proof. vm_compute. repeat split; reflexivity. Qed.

Lemma no_targets_file_no_scheduler_witness :
  fst (construct sample_env (Some cfg_good)) = Ret tt
  /\ scheduler (obj (snd (construct sample_env (Some cfg_good)))) = None
  /\ fst (get_target sample_env (snd (construct sample_env (Some cfg_good))))
     = Raise (AttributeError "get_target")
  /\ obj (snd (get_target sample_env
                 (snd (construct sample_env (Some cfg_good)))))
     = obj (snd (construct sample_env (Some cfg_good))).
Proof.
  apply (no_targets_file_no_scheduler sample_env cfg_good
           "/var/panoptes/POCS" "default_targets.yaml"
           (snd (before_scheduler sample_env cfg_good blank)));
    vm_compute; reflexivity.
Defined.

(** C9, as stated, fails: a location entry without a timezone is accepted
    (construction returns, the timezone stored being [None]); a location
    entry that is no mapping makes construction fail with an
    [AttributeError], and one without a latitude with the [TypeError] of
    the product with the unit, neither of them a structured error. *)
Lemma malformed_location_not_rejected :
  fst (construct sample_env (Some cfg_no_timezone)) = Ret tt
  /\ dict_lookup
       (location (obj (snd (construct sample_env (Some cfg_no_timezone)))))
       "timezone" = Some PyNone
  /\ fst (construct sample_env (Some cfg_null_location))
     = Raise (AttributeError "get")
  /\ raises_structured (fst (construct sample_env (Some cfg_null_location)))
     = false
  /\ raises_structured (fst (construct sample_env (Some cfg_no_latitude)))
     = false.
Proof. vm_compute. repeat split; reflexivity. Qed.

Lemma missing_location_is_fatal_witness :
  fst (construct sample_env (Some cfg_no_location))
  = Raise (error_Error "Bad site information")
  /\ raises_structured (fst (construct sample_env (Some cfg_no_location)))
     = true
  /\ mount (obj (snd (construct sample_env (Some cfg_no_location)))) = None
  /\ cameras (obj (snd (construct sample_env (Some cfg_no_location)))) = [].
Proof.
  apply (missing_location_is_fatal sample_env cfg_no_location).
  reflexivity.
Defined.


End ObsFacts.

(** ** Further properties of the server manager *)

Module IndiMore.

Import Indi IndiFacts IndiLines.

Lemma bind_step_ok {S A B} (m : M S A) (k : A -> M S B) (s s1 : S) (a : A) :
  m s = (Ret a, s1) -> bind m k s = k a s1.
Proof. intros H. unfold bind. rewrite H. reflexivity. Qed.

Lemma mapM_id_Some (l : list string) : mapM id (map Some l) = Some l.
Proof.
  induction l as [|x l IH]; [reflexivity|]. simpl. rewrite IH. reflexivity.
Qed.

(** X1: a [start] that goes through.  With the pipe there or creatable and
    the process creatable, [start] returns the handle of the new process,
    which runs the executable with [-m 100 -f <fifo>] or, when arguments
    were given, with those instead; a pipe that was there is reused as it
    is, a missing one is made; the object is not touched. *)
Theorem start_spawns_server (s : St) (args : list string) (f exe : string) :
  _fifo (self s) = Some f ->
  _indiserver (self s) = Some (Some exe) ->
  fork_ok (os s) = true ->
  (fs (os s) !! f = None -> f ∉ denied (os s)) ->
  fst (start args s) = Ret {| pid := next_pid (os s) |}
  /\ procs (os (snd (start args s))) !! next_pid (os s)
     = Some {| pgid := own_pgid (os s); argv := server_argv exe f args;
               sigterm := false |}
  /\ fs (os (snd (start args s)))
     = match fs (os s) !! f with
       | Some _ => fs (os s)
       | None => <[f := Fifo false []]> (fs (os s))
       end
  /\ self (snd (start args s)) = self s.
Proof.
  destruct s as [[i fi pp c] w l]. simpl. intros -> -> Hfork Hd.
  unfold start, subprocess_Popen, server_argv, default_opts. run.
  destruct (fs w !! f) as [n|] eqn:Hfs; simpl; rewrite ?Hfs; simpl.
  - destruct args as [|a args]; simpl; rewrite ?mapM_id_Some; simpl;
      rewrite Hfork; simpl; rewrite lookup_insert_eq; auto.
  - rewrite bool_decide_false by auto. simpl.
    destruct args as [|a args]; simpl; rewrite ?mapM_id_Some; simpl;
      rewrite Hfork; simpl; rewrite lookup_insert_eq; auto.
Qed.

Lemma start_spawns_server_witness :
  fst (start ["-v"] (snd (construct indi_fifo host)))
  = Ret {| pid := 4243 |}
  /\ procs (os (snd (start ["-v"] (snd (construct indi_fifo host))))) !! 4243
     = Some {| pgid := 4000;
               argv := server_argv "/usr/bin/indiserver" indi_fifo ["-v"];
               sigterm := false |}
  /\ fs (os (snd (start ["-v"] (snd (construct indi_fifo host)))))
     = match fs (os (snd (construct indi_fifo host))) !! indi_fifo with
       | Some _ => fs (os (snd (construct indi_fifo host)))
       | None => <[indi_fifo := Fifo false []]>
                   (fs (os (snd (construct indi_fifo host))))
       end
  /\ self (snd (start ["-v"] (snd (construct indi_fifo host))))
     = self (snd (construct indi_fifo host)).
Proof.
  apply (start_spawns_server (snd (construct indi_fifo host)) ["-v"]
           indi_fifo "/usr/bin/indiserver");
    try (vm_compute; reflexivity).
  vm_compute. discriminate.
Defined.

(** X2: when there is nothing at the pipe's path and nothing can be made
    there, [start] raises [InvalidCommand] and leaves everything as it
    was: no process is created and nothing is logged. *)
Theorem start_without_pipe_raises (s : St) (args : list string) (f : string) :
  _fifo (self s) = Some f ->
  fs (os s) !! f = None ->
  f ∈ denied (os s) ->
  start args s
  = (Raise (error_InvalidCommand
              ("Can't open fifo at " +:+ f +:+ " " +:+ TAB +:+ " EACCES")),
     s).
Proof.
  destruct s as [[i fi pp c] w l]. simpl. intros -> Hfs Hd.
  unfold start. run. repeat (rewrite Hfs; simpl).
  rewrite (bool_decide_true (f ∈ denied w)) by assumption. reflexivity.
Qed.

Lemma start_without_pipe_raises_witness :
  start [] (deny indi_fifo (pipe_removed indi_fifo connected_manager))
  = (Raise (error_InvalidCommand
              ("Can't open fifo at " +:+ indi_fifo +:+ " " +:+ TAB
               +:+ " EACCES")),
     deny indi_fifo (pipe_removed indi_fifo connected_manager)).
Proof.
  apply (start_without_pipe_raises
           (deny indi_fifo (pipe_removed indi_fifo connected_manager))
           [] indi_fifo); vm_compute; reflexivity.
Defined.

(** X3: when the process cannot be created, [start] does not raise the
    error of the system: its handler reads [self.host], so what comes out
    is an [AttributeError]; no process is created, and the pipe, made
    before the attempt, stays on disk. *)
Theorem start_without_process_keeps_pipe
  (s : St) (args : list string) (f exe : string) :
  _fifo (self s) = Some f ->
  _indiserver (self s) = Some (Some exe) ->
  fork_ok (os s) = false ->
  (fs (os s) !! f = None -> f ∉ denied (os s)) ->
  fst (start args s) = Raise (AttributeError "host")
  /\ procs (os (snd (start args s))) = procs (os s)
  /\ is_Some (fs (os (snd (start args s))) !! f).
Proof.
  destruct s as [[i fi pp c] w l]. simpl. intros -> -> Hfork Hd.
  unfold start, subprocess_Popen. run.
  destruct (fs w !! f) as [n|] eqn:Hfs; simpl; rewrite ?Hfs; simpl.
  - destruct args as [|a args]; simpl; rewrite ?mapM_id_Some; simpl;
      rewrite Hfork; simpl; rewrite Hfs; eauto.
  - rewrite bool_decide_false by auto. simpl.
    destruct args as [|a args]; simpl; rewrite ?mapM_id_Some; simpl;
      rewrite Hfork; simpl; rewrite lookup_insert_eq; eauto.
Qed.

Lemma start_without_process_keeps_pipe_witness :
  let s := {| self := {| _indiserver := Some (Some "/usr/bin/indiserver");
                         _fifo := Some indi_fifo; _proc := None;
                         _connected := None |};
              os := host_no_fork; logged := [] |} in
  fst (start [] s) = Raise (AttributeError "host")
  /\ procs (os (snd (start [] s))) = procs (os s)
  /\ is_Some (fs (os (snd (start [] s))) !! indi_fifo).
Proof.
  apply (start_without_process_keeps_pipe
           {| self := {| _indiserver := Some (Some "/usr/bin/indiserver");
                         _fifo := Some indi_fifo; _proc := None;
                         _connected := None |};
              os := host_no_fork; logged := [] |}
           [] indi_fifo "/usr/bin/indiserver");
    try (vm_compute; reflexivity).
  intros _. apply not_elem_of_empty.
Defined.

(** X4: without the executable on the search path, construction raises
    [AssertionError] before anything is done: the system is as it was, no
    pipe path is recorded and nothing is logged. *)
Theorem construct_without_executable (fifo : string) (w : OS) :
  search_path w !! "indiserver" = None ->
  construct fifo w
  = (Raise AssertionError,
     {| self := {| _indiserver := Some None; _fifo := None; _proc := None;
                   _connected := None |};
        os := w; logged := [] |}).
Proof.
  intros H. unfold construct, __init__, shutil_which, set_indiserver. run.
  rewrite H. reflexivity.
Qed.

Lemma construct_without_executable_witness :
  construct indi_fifo
    {| search_path := ∅; fs := ∅; denied := ∅; procs := ∅; fork_ok := true;
       next_pid := 4242; own_pgid := 4000 |}
  = (Raise AssertionError,
     {| self := {| _indiserver := Some None; _fifo := None; _proc := None;
                   _connected := None |};
        os := {| search_path := ∅; fs := ∅; denied := ∅; procs := ∅;
                 fork_ok := true; next_pid := 4242; own_pgid := 4000 |};
        logged := [] |}).
Proof.
  apply (construct_without_executable indi_fifo
           {| search_path := ∅; fs := ∅; denied := ∅; procs := ∅;
              fork_ok := true; next_pid := 4242; own_pgid := 4000 |}).
  reflexivity.
Defined.

(** X5: what a construction that returns leaves behind.  The object holds
    the handle of the new process and the pipe's path; the pipe is on
    disk; the process runs the executable with the default options; the
    [_connected] attribute is false, yet [is_connected] answers true. *)
Theorem construct_postcondition (fifo : string) (w : OS) :
  fst (construct fifo w) = Ret tt ->
  _proc (self (snd (construct fifo w))) = Some {| pid := next_pid w |}
  /\ _fifo (self (snd (construct fifo w))) = Some fifo
  /\ _connected (self (snd (construct fifo w))) = Some false
  /\ is_Some (fs (os (snd (construct fifo w))) !! fifo)
  /\ (exists exe,
        search_path w !! "indiserver" = Some exe
        /\ procs (os (snd (construct fifo w))) !! next_pid w
           = Some {| pgid := own_pgid w; argv := server_argv exe fifo [];
                     sigterm := false |})
  /\ fst (is_connected (snd (construct fifo w))) = Ret true.
Proof.
  unfold construct, __init__, start, shutil_which, set_indiserver,
    subprocess_Popen, server_argv, default_opts.
  run.
  destruct (search_path w !! "indiserver") as [exe|] eqn:Hw; simpl;
    [|discriminate].
  destruct (fs w !! fifo) as [n|] eqn:Hfs; simpl; rewrite ?Hfs; simpl.
  - destruct (fork_ok w); simpl; [|discriminate]. intros _.
    rewrite lookup_insert_eq, Hfs. simpl.
    repeat split; eauto.
  - destruct (decide (fifo ∈ denied w)) as [Hd|Hd].
    + rewrite bool_decide_true by assumption. simpl. discriminate.
    + rewrite bool_decide_false by assumption. simpl.
      destruct (fork_ok w); simpl; [|discriminate]. intros _.
      rewrite !lookup_insert_eq. simpl.
      repeat split; eauto.
Qed.

Lemma construct_postcondition_witness :
  _proc (self (snd (construct indi_fifo host))) = Some {| pid := next_pid host |}
  /\ _fifo (self (snd (construct indi_fifo host))) = Some indi_fifo
  /\ _connected (self (snd (construct indi_fifo host))) = Some false
  /\ is_Some (fs (os (snd (construct indi_fifo host))) !! indi_fifo)
  /\ (exists exe,
        search_path host !! "indiserver" = Some exe
        /\ procs (os (snd (construct indi_fifo host))) !! next_pid host
           = Some {| pgid := own_pgid host;
                     argv := server_argv exe indi_fifo [];
                     sigterm := false |})
  /\ fst (is_connected (snd (construct indi_fifo host))) = Ret true.
Proof.
  apply (construct_postcondition indi_fifo host). vm_compute. reflexivity.
Defined.

(** *** Stopping *)

(** A [stop] on an object that holds a process handle whose pid the
    process table has, when a pipe that is there may be removed. *)
Lemma stop_run (s : St) (p : Popen) (pr : process) (f : string) :
  _proc (self s) = Some p ->
  procs (os s) !! pid p = Some pr ->
  _fifo (self s) = Some f ->
  (is_Some (fs (os s) !! f) -> f ∉ denied (os s)) ->
  exists l',
    stop s = (Ret tt, {| self := self s; os := os_after_stop p pr f (os s);
                         logged := l' |}).
Proof.
  destruct s as [[i fi pp c] w l]. simpl. intros -> Hpr -> Hd.
  destruct w as [sp fsw dn pc fk np og]. simpl in *.
  unfold os_after_stop. run. rewrite Hpr. simpl.
  assert (Hnd : is_Some (fsw !! f) -> bool_decide (f ∈ dn) = false)
    by (intros H; apply bool_decide_false; auto).
  destruct (pgid pr =? 0) eqn:Hg; simpl; rewrite ?Hpr; simpl;
    destruct (fsw !! f) as [n|] eqn:Hfs; simpl;
    repeat (rewrite ?Hfs; simpl);
    try (rewrite Hnd by eauto; simpl);
    try rewrite (delete_id fsw f) by assumption;
    eexists; reflexivity.
Qed.









(** *** Writing to the pipe *)

(** What any call of [_write_to_server] leaves alone. *)
Lemma write_frame (s : St) (cmd : list string) :
  self (snd (_write_to_server cmd s)) = self s
  /\ procs (os (snd (_write_to_server cmd s))) = procs (os s)
  /\ denied (os (snd (_write_to_server cmd s))) = denied (os s)
  /\ (forall path, _fifo (self s) ≠ Some path ->
        fs (os (snd (_write_to_server cmd s))) !! path = fs (os s) !! path)
  /\ (fst (_write_to_server cmd s) ≠ Ret tt ->
      os (snd (_write_to_server cmd s)) = os s).
Proof.
  destruct s as [[i fi pp c] w l]. run.
  destruct pp as [p|]; simpl; [|tauto].
  destruct (pid p =? 0); simpl; [tauto|].
  destruct fi as [f|]; simpl; [|tauto].
  destruct (String.eqb f EmptyString); simpl; [tauto|].
  destruct (fs w !! f) as [[[] wr|ct]|] eqn:Hfs; simpl;
    try destruct (bool_decide (f ∈ denied w)); simpl;
    repeat split; try tauto;
    intros path Hne; apply lookup_insert_ne; congruence.
Qed.

(** A write on a pipe that has a reader. *)
Lemma write_on_pipe (s : St) (cmd : list string) (p : Popen) (f : string)
  (written : list string) :
  _proc (self s) = Some p ->
  (pid p =? 0) = false ->
  _fifo (self s) = Some f ->
  String.eqb f EmptyString = false ->
  fs (os s) !! f = Some (Fifo true written) ->
  exists l',
    _write_to_server cmd s
    = (Ret tt,
       {| self := self s;
          os := set_fs (insert f (Fifo true (written ++ [join " " cmd])))
                  (os s);
          logged := l' |}).
Proof.
  destruct s as [[i fi pp c] w l]. simpl. intros -> Hpid -> Hf Hfs.
  run. rewrite Hpid. simpl. rewrite Hf. simpl. rewrite Hfs. simpl.
  eexists. reflexivity.
Qed.

Lemma join_unload_cmd (name : option string) (driver : string) :
  join " " (unload_cmd name driver) = unload_line name driver.
Proof.
  unfold unload_cmd, unload_line. cbn [join]. unfold NL.
  repeat rewrite ?string_app_assoc, ?string_app_cons, ?string_app_nil.
  reflexivity.
Qed.

(** X10: a write never touches the object, the process table or any path
    but the pipe's; and unless it returns, it leaves the whole system as it
    was: a command that fails, or blocks, has written nothing. *)
Theorem write_touches_only_the_pipe (s : St) (cmd : list string) :
  self (snd (_write_to_server cmd s)) = self s
  /\ procs (os (snd (_write_to_server cmd s))) = procs (os s)
  /\ (forall path, _fifo (self s) ≠ Some path ->
        fs (os (snd (_write_to_server cmd s))) !! path = fs (os s) !! path)
  /\ (fst (_write_to_server cmd s) ≠ Ret tt ->
      os (snd (_write_to_server cmd s)) = os s).
Proof.
  destruct (write_frame s cmd) as (H1 & H2 & _ & H3 & H4). auto.
Qed.

Lemma write_touches_only_the_pipe_witness :
  self (snd (_write_to_server ["start"; "indi_simulator_ccd"]
               orphaned_manager)) = self orphaned_manager
  /\ os (snd (_write_to_server ["start"; "indi_simulator_ccd"]
                orphaned_manager)) = os orphaned_manager.
Proof.
  destruct (write_touches_only_the_pipe orphaned_manager
              ["start"; "indi_simulator_ccd"]) as (H1 & _ & _ & H4).
  split; [exact H1|]. apply H4. vm_compute. discriminate.
Defined.

(** X11: the [except] clause of [load_drivers] never fires.  No failure
    of a load is an [InvalidCommand], so the batch call is the loads one
    after the other: the first device that fails, or blocks, ends it. *)
Theorem load_drivers_never_skips (devices : list (string * string))
  (s : St) :
  load_drivers devices s = load_each devices s.
Proof.
  revert s. induction devices as [|[n d] rest IH]; intros s;
    [reflexivity|].
  destruct (load_driver (Some n) d s) as [[[]|e|] s1] eqn:E.
  - rewrite (load_drivers_cons_ok n d rest s s1 E).
    simpl. rewrite (bind_step_ok _ _ _ _ _ E). apply IH.
  - rewrite (load_drivers_cons_raise n d rest s s1 e E).
    simpl. unfold bind. rewrite E. reflexivity.
  - rewrite (load_drivers_cons_blocked n d rest s s1 E).
    simpl. unfold bind. rewrite E. reflexivity.
Qed.

(** One load with a device name on a pipe that has a reader. *)
Lemma named_load_run (s : St) (n d : string) (p : Popen) (f : string)
  (written : list string) :
  _proc (self s) = Some p ->
  (pid p =? 0) = false ->
  _fifo (self s) = Some f ->
  String.eqb f EmptyString = false ->
  String.eqb n EmptyString = false ->
  fs (os s) !! f = Some (Fifo true written) ->
  exists s1,
    load_driver (Some n) d s = (Ret tt, s1)
    /\ self s1 = self s
    /\ os s1 = set_fs (insert f (Fifo true (written ++ [load_line n d])))
                 (os s).
Proof.
  intros Hp Hpid Hf Hne Hn Hfs.
  pose (s0 := snd (log DEBUG "Loading driver" s)).
  destruct (write_on_pipe s0 (load_cmd (Some n) d) p f written)
    as [l' E]; try assumption.
  change (load_driver (Some n) d s)
    with (_write_to_server (load_cmd (Some n) d) s0).
  rewrite E, (join_load_cmd n d Hn). eexists. repeat split.
Qed.

(** X12: a batch on a pipe that has a reader.  When every device has a
    name, [load_drivers] returns after putting one line per device through
    the pipe, each as a write of its own, in the order of the mapping; it
    leaves the object and every other path as they were.  With an empty
    mapping nothing is written. *)
Theorem load_drivers_writes_in_order (devices : list (string * string))
  (s : St) (p : Popen) (f : string) (written : list string) :
  _proc (self s) = Some p ->
  (pid p =? 0) = false ->
  _fifo (self s) = Some f ->
  String.eqb f EmptyString = false ->
  Forall (fun nd => String.eqb (fst nd) EmptyString = false) devices ->
  fs (os s) !! f = Some (Fifo true written) ->
  fst (load_drivers devices s) = Ret tt
  /\ self (snd (load_drivers devices s)) = self s
  /\ fs (os (snd (load_drivers devices s)))
     = <[f := Fifo true
               (written ++ map (fun nd => load_line (fst nd) (snd nd))
                             devices)]> (fs (os s)).
Proof.
  intros Hp Hpid Hf Hne Hall. revert s written Hp Hf.
  induction Hall as [|[n d] rest Hn _ IH]; intros s written Hp Hf Hfs.
  - simpl. rewrite app_nil_r. repeat split.
    symmetry. apply insert_id. exact Hfs.
  - destruct (named_load_run s n d p f written Hp Hpid Hf Hne Hn Hfs)
      as (s1 & E & Hself & Hos).
    rewrite (load_drivers_cons_ok n d rest s s1 E).
    destruct (IH s1 (written ++ [load_line n d])) as (R1 & R2 & R3).
    + congruence.
    + congruence.
    + rewrite Hos. simpl. apply lookup_insert_eq.
    + split; [exact R1|]. split; [congruence|].
      rewrite R3, Hos. simpl. rewrite insert_insert_eq, <- app_assoc.
      reflexivity.
Qed.

Lemma load_drivers_writes_in_order_witness :
  let devices := [("cam0", "indi_simulator_ccd"); ("cam1", "indi_sx_ccd")] in
  fst (load_drivers devices connected_manager) = Ret tt
  /\ self (snd (load_drivers devices connected_manager))
     = self connected_manager
  /\ fs (os (snd (load_drivers devices connected_manager)))
     = <[indi_fifo := Fifo true
               ([] ++ map (fun nd => load_line (fst nd) (snd nd)) devices)]>
         (fs (os connected_manager)).
Proof.
  apply (load_drivers_writes_in_order
           [("cam0", "indi_simulator_ccd"); ("cam1", "indi_sx_ccd")]
           connected_manager {| pid := 4242 |} indi_fifo []);
    try (vm_compute; reflexivity).
  repeat constructor.
Defined.

(** X13: an unload on a pipe that has a reader puts exactly
    [stop <driver> "<name>" ] and a newline through the pipe, as one
    write, whatever the name is: the newline token is there also when the
    name is empty or [None]. *)
Theorem unload_writes_its_line (s : St) (name : option string)
  (driver : string) (p : Popen) (f : string) (written : list string) :
  _proc (self s) = Some p ->
  (pid p =? 0) = false ->
  _fifo (self s) = Some f ->
  String.eqb f EmptyString = false ->
  fs (os s) !! f = Some (Fifo true written) ->
  fst (unload_driver name driver s) = Ret tt
  /\ fs (os (snd (unload_driver name driver s))) !! f
     = Some (Fifo true (written ++ [unload_line name driver]))
  /\ last (unload_cmd name driver) = Some NL.
Proof.
  intros Hp Hpid Hf Hne Hfs.
  pose (s0 := snd (log DEBUG "Unloading driver" s)).
  destruct (write_on_pipe s0 (unload_cmd name driver) p f written)
    as [l' E]; try assumption.
  change (unload_driver name driver s)
    with (_write_to_server (unload_cmd name driver) s0).
  rewrite E, join_unload_cmd. simpl.
  split; [reflexivity|]. split; [apply lookup_insert_eq|reflexivity].
Qed.

Lemma unload_writes_its_line_witness :
  fst (unload_driver None "indi_simulator_ccd" connected_manager) = Ret tt
  /\ fs (os (snd (unload_driver None "indi_simulator_ccd"
                    connected_manager))) !! indi_fifo
     = Some (Fifo true ([] ++ [unload_line None "indi_simulator_ccd"]))
  /\ last (unload_cmd None "indi_simulator_ccd") = Some NL.
Proof.
  apply (unload_writes_its_line connected_manager None "indi_simulator_ccd"
           {| pid := 4242 |} indi_fifo []);
    vm_compute; reflexivity.
Defined.

(** X14: a load followed by an unload of the same device, on a pipe that
    has a reader: both return, and the pipe has received the load line
    and then the unload line, as two writes. *)
Theorem load_then_unload (s : St) (name driver : string) (p : Popen)
  (f : string) (written : list string) :
  _proc (self s) = Some p ->
  (pid p =? 0) = false ->
  _fifo (self s) = Some f ->
  String.eqb f EmptyString = false ->
  String.eqb name EmptyString = false ->
  fs (os s) !! f = Some (Fifo true written) ->
  fst ((load_driver (Some name) driver ;;;
        unload_driver (Some name) driver) s) = Ret tt
  /\ fs (os (snd ((load_driver (Some name) driver ;;;
                    unload_driver (Some name) driver) s))) !! f
     = Some (Fifo true (written ++ [load_line name driver;
                                    unload_line (Some name) driver])).
Proof.
  intros Hp Hpid Hf Hne Hn Hfs.
  destruct (named_load_run s name driver p f written Hp Hpid Hf Hne Hn Hfs)
    as (s1 & E & Hself & Hos).
  rewrite (bind_step_ok _ _ _ _ _ E).
  pose (s0 := snd (log DEBUG "Unloading driver" s1)).
  destruct (write_on_pipe s0 (unload_cmd (Some name) driver) p f
              (written ++ [load_line name driver])) as [l' E2];
    try assumption; try (simpl; congruence).
  { simpl. rewrite Hos. simpl. apply lookup_insert_eq. }
  change (unload_driver (Some name) driver s1)
    with (_write_to_server (unload_cmd (Some name) driver) s0).
  rewrite E2, join_unload_cmd. simpl.
  split; [reflexivity|]. rewrite lookup_insert_eq, <- app_assoc.
  reflexivity.
Qed.

Lemma load_then_unload_witness :
  fst ((load_driver (Some "cam0") "indi_simulator_ccd" ;;;
        unload_driver (Some "cam0") "indi_simulator_ccd")
         connected_manager) = Ret tt
  /\ fs (os (snd ((load_driver (Some "cam0") "indi_simulator_ccd" ;;;
                    unload_driver (Some "cam0") "indi_simulator_ccd")
                     connected_manager))) !! indi_fifo
     = Some (Fifo true ([] ++ [load_line "cam0" "indi_simulator_ccd";
                               unload_line (Some "cam0")
                                 "indi_simulator_ccd"])).
Proof.
  apply (load_then_unload connected_manager "cam0" "indi_simulator_ccd"
           {| pid := 4242 |} indi_fifo []);
    vm_compute; reflexivity.
Defined.

(** *** From construction to stop *)

(** The state a construction that returns leaves. *)
Lemma construct_state (fifo : string) (w : OS) :
  fst (construct fifo w) = Ret tt ->
  exists exe l,
    search_path w !! "indiserver" = Some exe
    /\ self (snd (construct fifo w))
       = {| _indiserver := Some (Some exe); _fifo := Some fifo;
            _proc := Some {| pid := next_pid w |};
            _connected := Some false |}
    /\ os (snd (construct fifo w))
       = {| search_path := search_path w;
            fs := match fs w !! fifo with
                  | Some _ => fs w
                  | None => <[fifo := Fifo false []]> (fs w)
                  end;
            denied := denied w;
            procs := <[next_pid w :=
                        {| pgid := own_pgid w;
                           argv := server_argv exe fifo [];
                           sigterm := false |}]> (procs w);
            fork_ok := fork_ok w;
            next_pid := next_pid w + 1;
            own_pgid := own_pgid w |}
    /\ logged (snd (construct fifo w)) = l.
Proof.
  unfold construct, __init__, start, shutil_which, set_indiserver,
    subprocess_Popen, server_argv, default_opts.
  run.
  destruct (search_path w !! "indiserver") as [exe|] eqn:Hw; simpl;
    [|discriminate].
  destruct (fs w !! fifo) as [n|] eqn:Hfs; simpl; rewrite ?Hfs; simpl.
  - destruct (fork_ok w); simpl; [|discriminate]. intros _.
    eexists _, _. repeat split.
  - destruct (decide (fifo ∈ denied w)) as [Hd|Hd].
    + rewrite bool_decide_true by assumption. simpl. discriminate.
    + rewrite bool_decide_false by assumption. simpl.
      destruct (fork_ok w); simpl; [|discriminate]. intros _.
      eexists _, _. repeat split.
Qed.

(** X28: a manager that was constructed can be stopped.  When entries may
    be removed at the pipe's path, [stop] on the object construction
    returned goes through, leaves nothing at the pipe's path, and has
    sent SIGTERM to the server that construction started. *)
Theorem construct_then_stop (fifo : string) (w : OS) :
  fst (construct fifo w) = Ret tt ->
  fifo ∉ denied w ->
  (own_pgid w =? 0) = false ->
  fst (stop (snd (construct fifo w))) = Ret tt
  /\ fs (os (snd (stop (snd (construct fifo w))))) !! fifo = None
  /\ sigterm <$> procs (os (snd (stop (snd (construct fifo w)))))
                   !! next_pid w
     = Some true.
Proof.
  intros Hret Hd Hg.
  destruct (construct_state fifo w Hret) as (exe & l & Hexe & Hself & Hos & _).
  destruct (stop_run (snd (construct fifo w)) {| pid := next_pid w |}
              {| pgid := own_pgid w; argv := server_argv exe fifo [];
                 sigterm := false |} fifo) as [l' E].
  - rewrite Hself. reflexivity.
  - rewrite Hos. simpl. apply lookup_insert_eq.
  - rewrite Hself. reflexivity.
  - rewrite Hos. simpl. intros _. exact Hd.
  - rewrite E. simpl. rewrite Hg.
    split; [reflexivity|]. split; [apply lookup_delete_eq|].
    rewrite lookup_insert_eq. reflexivity.
Qed.

Lemma construct_then_stop_witness :
  fst (stop (snd (construct indi_fifo host))) = Ret tt
  /\ fs (os (snd (stop (snd (construct indi_fifo host))))) !! indi_fifo
     = None
  /\ sigterm <$> procs (os (snd (stop (snd (construct indi_fifo host)))))
                   !! next_pid host
     = Some true.
Proof.
  apply (construct_then_stop indi_fifo host).
  - vm_compute. reflexivity.
  - apply not_elem_of_empty.
  - reflexivity.
Defined.

End IndiMore.

(** ** Further properties of the observatory *)

Module ObsMore.

Import Obs ObsFacts ObsWords.

Section More.

Context (E : Env).

(** *** Location *)

(** [_setup_location] only ever assigns [self.location]. *)
Lemma setup_location_keeps {B} (f : Observatory -> B) :
  (forall o v,
     f {| config := config o; location := v; mount := mount o;
          cameras := cameras o; scheduler := scheduler o |} = f o) ->
  preserves f (_setup_location E).
Proof.
  intros H. unfold _setup_location. preserved. intros s. simpl. apply H.
Qed.

(** When it does not return, it has assigned nothing. *)
Lemma setup_location_failure (s : St) :
  fst (_setup_location E s) ≠ Ret tt ->
  obj (snd (_setup_location E s)) = obj s.
Proof.
  unfold _setup_location, bind, attr, log, modify, lift, set_location,
    with_obj, modify, raise. simpl.
  destruct (dict_contains (config (obj s)) "location"); simpl; [|reflexivity].
  destruct (py_get (dict_get (config (obj s)) "location" PyNone) "name" _)
    as [?| |]; simpl; try reflexivity.
  repeat match goal with
         | |- context [match py_get ?v ?k ?d with _ => _ end] =>
             destruct (py_get v k d) as [?| |]; simpl; try reflexivity
         | |- context [match times_unit E ?v ?u with _ => _ end] =>
             destruct (times_unit E v u) as [?| |]; simpl; try reflexivity
         end.
  intros H. exfalso. apply H. reflexivity.
Qed.

(** When it returns, the location has the seven keys. *)
Lemma setup_location_keys (s : St) :
  fst (_setup_location E s) = Ret tt ->
  map fst (location (obj (snd (_setup_location E s)))) = location_keys.
Proof.
  unfold _setup_location, bind, attr, log, modify, lift, set_location,
    with_obj, modify, raise. simpl.
  destruct (dict_contains (config (obj s)) "location"); simpl;
    [|discriminate].
  destruct (py_get (dict_get (config (obj s)) "location" PyNone) "name" _)
    as [?| |]; simpl; try discriminate.
  repeat match goal with
         | |- context [match py_get ?v ?k ?d with _ => _ end] =>
             destruct (py_get v k d) as [?| |]; simpl; try discriminate
         | |- context [match times_unit E ?v ?u with _ => _ end] =>
             destruct (times_unit E v u) as [?| |]; simpl; try discriminate
         end.
  reflexivity.
Qed.

(** X15: [_setup_location] sets the location as a whole or not at all.
    When it returns, [self.location] has exactly the keys name, latitude,
    longitude, elevation, timezone, pressure and horizon, in that order;
    when it does not, the object is as it was; and it never touches the
    configuration, the mount, the cameras or the scheduler. *)
Theorem setup_location_all_or_nothing (s : St) :
  (fst (_setup_location E s) = Ret tt ->
   map fst (location (obj (snd (_setup_location E s)))) = location_keys)
  /\ (fst (_setup_location E s) ≠ Ret tt ->
      obj (snd (_setup_location E s)) = obj s)
  /\ config (obj (snd (_setup_location E s))) = config (obj s)
  /\ mount (obj (snd (_setup_location E s))) = mount (obj s)
  /\ cameras (obj (snd (_setup_location E s))) = cameras (obj s)
  /\ scheduler (obj (snd (_setup_location E s))) = scheduler (obj s).
Proof.
  split; [apply setup_location_keys|].
  split; [apply setup_location_failure|].
  repeat split; apply setup_location_keeps; reflexivity.
Qed.

(** X16: the values [_setup_location] stores.  For a location entry that
    is a mapping, when astropy accepts the five products, the latitude,
    longitude and horizon are taken in degrees, the elevation in meters
    and the pressure in bars; a missing name is [Nameless Location], a
    missing pressure 0.68, a missing elevation or horizon 0, and a missing
    timezone is stored as [None]. *)
Theorem setup_location_values (s : St) (site : dict)
  (lat lon pres elev hor : PyVal) :
  dict_lookup (config (obj s)) "location" = Some (PyDict site) ->
  times_unit E (dict_get site "latitude" PyNone) "degree" = Ret lat ->
  times_unit E (dict_get site "longitude" PyNone) "degree" = Ret lon ->
  times_unit E (dict_get site "pressure" (PyFloat "0.68")) "bar" = Ret pres ->
  times_unit E (dict_get site "elevation" (PyInt 0)) "meter" = Ret elev ->
  times_unit E (dict_get site "horizon" (PyInt 0)) "degree" = Ret hor ->
  fst (_setup_location E s) = Ret tt
  /\ location (obj (snd (_setup_location E s)))
     = [("name", dict_get site "name" (PyStr "Nameless Location"));
        ("latitude", lat); ("longitude", lon); ("elevation", elev);
        ("timezone", dict_get site "timezone" PyNone);
        ("pressure", pres); ("horizon", hor)].
Proof.
  intros Hloc Hlat Hlon Hpres Helev Hhor.
  assert (Hin : dict_contains (config (obj s)) "location" = true)
    by (unfold dict_contains; rewrite Hloc; reflexivity).
  assert (Hget : dict_get (config (obj s)) "location" PyNone = PyDict site)
    by (unfold dict_get; rewrite Hloc; reflexivity).
  unfold _setup_location, bind, attr, log, modify, lift, set_location,
    with_obj, modify, raise. simpl.
  rewrite Hin, !Hget. simpl.
  rewrite Hlat. simpl. rewrite Hlon. simpl. rewrite Hpres. simpl.
  rewrite Helev. simpl. rewrite Hhor. simpl. split; reflexivity.
Qed.

(** *** Mount *)

(** [_create_mount] only ever assigns [self.mount]. *)
Lemma create_mount_keeps {B} (f : Observatory -> B) (v : PyVal) :
  (forall o m,
     f {| config := config o; location := location o; mount := m;
          cameras := cameras o; scheduler := scheduler o |} = f o) ->
  preserves f (_create_mount E v).
Proof.
  intros H. unfold _create_mount. preserved. intros s. simpl. apply H.
Qed.

(** The run of [_create_mount], by the outcome of its three steps. *)
Lemma create_mount_run (v : PyVal) (s : St) :
  let info := chosen_mount_info (config (obj s)) v in
  match py_get info "model" PyNone with
  | Ret model =>
      match load_module E ("panoptes.mount." +:+ py_str model) with
      | Ret module =>
          match new_Mount E module (config (obj s)) (location (obj s)) with
          | Ret m =>
              fst (_create_mount E v s) = Ret tt
              /\ obj (snd (_create_mount E v s))
                 = {| config := config (obj s); location := location (obj s);
                      mount := Some m; cameras := cameras (obj s);
                      scheduler := scheduler (obj s) |}
          | Raise e =>
              fst (_create_mount E v s) = Raise e
              /\ obj (snd (_create_mount E v s)) = obj s
          | Blocked =>
              fst (_create_mount E v s) = Blocked
              /\ obj (snd (_create_mount E v s)) = obj s
          end
      | Raise e =>
          fst (_create_mount E v s) = Raise e
          /\ obj (snd (_create_mount E v s)) = obj s
      | Blocked =>
          fst (_create_mount E v s) = Blocked
          /\ obj (snd (_create_mount E v s)) = obj s
      end
  | Raise e =>
      fst (_create_mount E v s) = Raise e
      /\ obj (snd (_create_mount E v s)) = obj s
  | Blocked =>
      fst (_create_mount E v s) = Blocked
      /\ obj (snd (_create_mount E v s)) = obj s
  end.
Proof.
  unfold _create_mount, chosen_mount_info, bind, attr, lift, log, modify,
    set_mount, with_obj, modify. simpl.
  destruct (py_get _ "model" PyNone) as [model|e|]; simpl; auto.
  destruct (load_module E _) as [module|e|]; simpl; auto.
  destruct (new_Mount E module _ _) as [m|e|]; simpl; auto.
Qed.

(** X17: a [_create_mount] that goes through.  It works on the
    description it is given or, without one, on the [mount] entry of the
    configuration; it loads the module [panoptes.mount.<model>] and stores
    the mount that module builds from the whole configuration and the
    location of the object; nothing else of the object changes. *)
Theorem create_mount_builds (v : PyVal) (s : St) (model : PyVal)
  (module : string) (m : Handle) :
  py_get (chosen_mount_info (config (obj s)) v) "model" PyNone = Ret model ->
  load_module E ("panoptes.mount." +:+ py_str model) = Ret module ->
  new_Mount E module (config (obj s)) (location (obj s)) = Ret m ->
  fst (_create_mount E v s) = Ret tt
  /\ obj (snd (_create_mount E v s))
     = {| config := config (obj s); location := location (obj s);
          mount := Some m; cameras := cameras (obj s);
          scheduler := scheduler (obj s) |}.
Proof.
  intros Hm Hl Hn. pose proof (create_mount_run v s) as H. cbv zeta in H.
  rewrite Hm, Hl, Hn in H. exact H.
Qed.

(** X18: unlike the camera loop, [_create_mount] converts nothing: when
    the module of the mount cannot be loaded, the error of the loader
    comes out as it is, an [ImportError] included, and the object is left
    as it was. *)
Theorem create_mount_load_failure (v : PyVal) (s : St) (model : PyVal)
  (e : exn) :
  py_get (chosen_mount_info (config (obj s)) v) "model" PyNone = Ret model ->
  load_module E ("panoptes.mount." +:+ py_str model) = Raise e ->
  fst (_create_mount E v s) = Raise e
  /\ obj (snd (_create_mount E v s)) = obj s.
Proof.
  intros Hm Hl. pose proof (create_mount_run v s) as H. cbv zeta in H.
  rewrite Hm, Hl in H. exact H.
Qed.

(** X19: with no [mount] entry in the configuration and no description
    given, [_create_mount] fails on [None.get] with an [AttributeError],
    before any module is looked for, and leaves the object as it was. *)
Theorem create_mount_without_entry (s : St) :
  dict_lookup (config (obj s)) "mount" = None ->
  fst (_create_mount E PyNone s) = Raise (AttributeError "get")
  /\ obj (snd (_create_mount E PyNone s)) = obj s.
Proof.
  intros Hnone. pose proof (create_mount_run PyNone s) as H. cbv zeta in H.
  unfold chosen_mount_info, dict_get in H. simpl in H. rewrite Hnone in H.
  exact H.
Qed.

(** *** Cameras *)

(** [_create_cameras] only ever assigns [self.cameras]. *)
Lemma create_cameras_keeps {B} (f : Observatory -> B) (v : PyVal) :
  (forall o c,
     f {| config := config o; location := location o; mount := mount o;
          cameras := c; scheduler := scheduler o |} = f o) ->
  preserves f (_create_cameras E v).
Proof.
  intros H. unfold _create_cameras. preserved.
  - apply preserves_of_id, create_each_keeps_obj.
  - intros s. simpl. apply H.
Qed.

(** The run of [_create_cameras] on a list, once the loop is known. *)
Lemma create_cameras_on_list (arg : PyVal) (s : St) (items : list PyVal) :
  dict_get (config (obj s)) "cameras" PyNone = PyList items ->
  _create_cameras E arg s
  = bind (create_each E items [])
      (fun cameras => set_cameras cameras ;;; log INFO "Cameras created.")
      (snd (log DEBUG ("Camera config: " +:+ NL +:+ " " +:+
                       py_str (PyList items)) s)).
Proof.
  intros Hc. unfold _create_cameras. unfold bind at 1, attr. simpl.
  rewrite Hc. reflexivity.
Qed.

(** X20: a camera list whose entries all resolve.  [_create_cameras]
    returns and stores one camera per entry, in the order of the list
    (none for an empty list, which is not replaced by the [mount] entry);
    nothing else of the object changes. *)
Theorem create_cameras_builds_in_order (arg : PyVal) (s : St)
  (items : list PyVal) (hs : list Handle) :
  dict_get (config (obj s)) "cameras" PyNone = PyList items ->
  Forall2 (fun c h => camera_of E c = Ret h) items hs ->
  fst (_create_cameras E arg s) = Ret tt
  /\ obj (snd (_create_cameras E arg s))
     = {| config := config (obj s); location := location (obj s);
          mount := mount (obj s); cameras := hs;
          scheduler := scheduler (obj s) |}.
Proof.
  intros Hc Hall. rewrite (create_cameras_on_list arg s items Hc).
  set (s0 := snd (log DEBUG _ s)).
  destruct (create_each_prefix E items hs [] Hall [] s0) as (s1 & E1 & O1).
  rewrite app_nil_r in E1. simpl in E1. unfold ret in E1.
  rewrite (bind_step _ _ _ _ _ E1). simpl.
  unfold bind, set_cameras, with_obj, log, modify. simpl.
  rewrite O1. split; reflexivity.
Qed.

(** One round on an entry that fails. *)
Lemma create_each_cons_fails bad model e rest acc s :
  py_get bad "model" PyNone = Ret model ->
  camera_of E bad = Raise e ->
  fst (create_each E (bad :: rest) acc s)
  = Raise (if is_ImportError e then error_NotFound model else e)
  /\ obj (snd (create_each E (bad :: rest) acc s)) = obj s.
Proof.
  unfold camera_of. intros Hm Hc. rewrite Hm in Hc.
  simpl. unfold bind, try_except, lift, log, modify, raise, ret.
  rewrite Hm. simpl.
  destruct (load_module E ("panoptes.camera." +:+ py_str model))
    as [module|e'|]; simpl; try discriminate.
  - rewrite Hc. simpl. destruct (is_ImportError e); split; reflexivity.
  - injection Hc as ->. destruct (is_ImportError e); split; reflexivity.
Qed.

(** X21: the first entry of the camera list that fails decides the
    outcome.  Whether the failure comes from the loader or from the
    camera class, an [ImportError] comes out as [NotFound] of that
    entry's model and any other error comes out as it is; in both cases
    the object is left as it was. *)
Theorem create_cameras_first_failure (arg : PyVal) (s : St)
  (pre post : list PyVal) (hs : list Handle) (bad model : PyVal) (e : exn) :
  dict_get (config (obj s)) "cameras" PyNone = PyList (pre ++ bad :: post) ->
  Forall2 (fun c h => camera_of E c = Ret h) pre hs ->
  py_get bad "model" PyNone = Ret model ->
  camera_of E bad = Raise e ->
  fst (_create_cameras E arg s)
  = Raise (if is_ImportError e then error_NotFound model else e)
  /\ obj (snd (_create_cameras E arg s)) = obj s.
Proof.
  intros Hc Hpre Hm Hbad.
  rewrite (create_cameras_on_list arg s _ Hc).
  set (s0 := snd (log DEBUG _ s)).
  destruct (create_each_prefix E pre hs (bad :: post) Hpre [] s0)
    as (s1 & E1 & O1).
  destruct (create_each_cons_fails bad model e post ([] ++ hs) s1 Hm Hbad)
    as [R1 R2].
  destruct (create_each E (bad :: post) ([] ++ hs) s1) as [r s2].
  simpl in R1, R2. subst r.
  rewrite (bind_raise _ _ _ _ _ E1). simpl.
  split; [reflexivity|]. rewrite R2, O1. reflexivity.
Qed.

(** X22: an entry of the camera list that is not a mapping (a bare model
    name, say) makes [_create_cameras] fail on [camera.get] with an
    [AttributeError], after the entries before it, and leaves the object
    as it was. *)
Theorem create_cameras_entry_not_a_mapping (arg : PyVal) (s : St)
  (pre post : list PyVal) (hs : list Handle) (bad : PyVal) :
  dict_get (config (obj s)) "cameras" PyNone = PyList (pre ++ bad :: post) ->
  Forall2 (fun c h => camera_of E c = Ret h) pre hs ->
  (forall d, bad ≠ PyDict d) ->
  fst (_create_cameras E arg s) = Raise (AttributeError "get")
  /\ obj (snd (_create_cameras E arg s)) = obj s.
Proof.
  intros Hc Hpre Hbad.
  rewrite (create_cameras_on_list arg s _ Hc).
  set (s0 := snd (log DEBUG _ s)).
  destruct (create_each_prefix E pre hs (bad :: post) Hpre [] s0)
    as (s1 & E1 & O1).
  assert (Hget : py_get bad "model" PyNone = Raise (AttributeError "get")).
  { destruct bad; try reflexivity. exfalso. eapply Hbad. reflexivity. }
  assert (Hrun : create_each E (bad :: post) ([] ++ hs) s1
                 = (Raise (AttributeError "get"), s1)).
  { simpl. unfold bind, lift. rewrite Hget. reflexivity. }
  rewrite Hrun in E1. rewrite (bind_raise _ _ _ _ _ E1). simpl.
  split; [reflexivity|exact O1].
Qed.

(** *** Scheduler *)

(** [_create_scheduler] only ever assigns [self.scheduler]. *)
Lemma create_scheduler_keeps {B} (f : Observatory -> B) :
  (forall o v,
     f {| config := config o; location := location o; mount := mount o;
          cameras := cameras o; scheduler := v |} = f o) ->
  preserves f (_create_scheduler E).
Proof.
  intros H. unfold _create_scheduler. preserved. intros s. simpl. apply H.
Qed.

(** The run of [_create_scheduler] when both path components are
    strings. *)
Lemma create_scheduler_run (s : St) (base tf : string) :
  dict_get (config (obj s)) "base_dir" PyNone = PyStr base ->
  dict_get (config (obj s)) "targets_file" PyNone = PyStr tf ->
  fst (_create_scheduler E s)
  = (if path_exists E (targets_path base tf) then
       match new_Scheduler E (targets_path base tf) (location (obj s)) with
       | Ret _ => Ret tt
       | Raise e => Raise e
       | Blocked => Blocked
       end
     else Ret tt)
  /\ scheduler (obj (snd (_create_scheduler E s)))
     = (if path_exists E (targets_path base tf) then
          match new_Scheduler E (targets_path base tf) (location (obj s)) with
          | Ret sch => Some sch
          | _ => scheduler (obj s)
          end
        else scheduler (obj s)).
Proof.
  intros Hb Ht.
  unfold _create_scheduler, targets_path, bind, attr, lift, log, modify,
    set_scheduler, with_obj, modify. simpl.
  rewrite Hb, Ht. simpl.
  destruct (path_exists E _); simpl; [|auto].
  destruct (new_Scheduler E _ _) as [sch|e|]; simpl; auto.
Qed.

(** X23: with the targets file on disk, [_create_scheduler] does what the
    scheduler class does with the path of that file and the location of
    the object: it stores the scheduler the class builds, and when the
    class fails its error comes out as it is and no scheduler is stored.
    The configuration, location, mount and cameras are not touched. *)
Theorem create_scheduler_with_file (s : St) (base tf : string) :
  dict_get (config (obj s)) "base_dir" PyNone = PyStr base ->
  dict_get (config (obj s)) "targets_file" PyNone = PyStr tf ->
  path_exists E (targets_path base tf) = true ->
  fst (_create_scheduler E s)
  = match new_Scheduler E (targets_path base tf) (location (obj s)) with
    | Ret _ => Ret tt
    | Raise e => Raise e
    | Blocked => Blocked
    end
  /\ scheduler (obj (snd (_create_scheduler E s)))
     = match new_Scheduler E (targets_path base tf) (location (obj s)) with
       | Ret sch => Some sch
       | _ => scheduler (obj s)
       end
  /\ config (obj (snd (_create_scheduler E s))) = config (obj s)
  /\ location (obj (snd (_create_scheduler E s))) = location (obj s)
  /\ mount (obj (snd (_create_scheduler E s))) = mount (obj s)
  /\ cameras (obj (snd (_create_scheduler E s))) = cameras (obj s).
Proof.
  intros Hb Ht Hp.
  destruct (create_scheduler_run s base tf Hb Ht) as [R1 R2].
  rewrite Hp in R1, R2.
  split; [exact R1|]. split; [exact R2|].
  repeat split; apply create_scheduler_keeps; reflexivity.
Qed.

(** X24: when [base_dir] or [targets_file] is missing from the
    configuration, [_create_scheduler] fails with the [TypeError] of
    [os.path.join] on [None], whatever is on disk, and leaves the object
    as it was. *)
Theorem create_scheduler_without_path (s : St) :
  dict_lookup (config (obj s)) "base_dir" = None
  \/ dict_lookup (config (obj s)) "targets_file" = None ->
  fst (_create_scheduler E s)
  = Raise (TypeError "join() argument must be str or bytes")
  /\ obj (snd (_create_scheduler E s)) = obj s.
Proof.
  intros H.
  unfold _create_scheduler, bind, attr, lift. simpl.
  assert (Hj : os_path_join (dict_get (config (obj s)) "base_dir" PyNone)
                 (PyStr "resources/conf_files/targets/")
                 (dict_get (config (obj s)) "targets_file" PyNone)
               = Raise (TypeError "join() argument must be str or bytes")).
  { unfold dict_get. destruct H as [H|H]; rewrite H.
    - reflexivity.
    - destruct (dict_lookup (config (obj s)) "base_dir") as [[]|];
        reflexivity. }
  rewrite Hj. split; reflexivity.
Qed.

(** X25: an absolute [targets_file] is used as it is: the file looked for,
    and handed to the scheduler class, is that path, and [base_dir],
    which must still be a string, plays no part. *)
Theorem create_scheduler_absolute_targets_file (s : St) (base tf : string) :
  dict_get (config (obj s)) "base_dir" PyNone = PyStr base ->
  dict_get (config (obj s)) "targets_file" PyNone = PyStr tf ->
  String.prefix "/" tf = true ->
  fst (_create_scheduler E s)
  = (if path_exists E tf then
       match new_Scheduler E tf (location (obj s)) with
       | Ret _ => Ret tt
       | Raise e => Raise e
       | Blocked => Blocked
       end
     else Ret tt)
  /\ scheduler (obj (snd (_create_scheduler E s)))
     = (if path_exists E tf then
          match new_Scheduler E tf (location (obj s)) with
          | Ret sch => Some sch
          | _ => scheduler (obj s)
          end
        else scheduler (obj s)).
Proof.
  intros Hb Ht Habs.
  assert (Hp : targets_path base tf = tf)
    by (unfold targets_path, join2 at 1; rewrite Habs; reflexivity).
  pose proof (create_scheduler_run s base tf Hb Ht) as H.
  rewrite Hp in H. exact H.
Qed.

(** *** Construction *)

(** X26: what a construction that returns leaves behind, whatever the
    collaborators are: the object holds the configuration it was given, a
    location with the seven keys, a mount, and a scheduler exactly when
    the targets file is on disk. *)
Theorem constructed_observatory (cfg : dict) (s' : St) :
  construct E (Some cfg) = (Ret tt, s') ->
  config (obj s') = cfg
  /\ map fst (location (obj s')) = location_keys
  /\ is_Some (mount (obj s'))
  /\ exists base tf,
       dict_get cfg "base_dir" PyNone = PyStr base
       /\ dict_get cfg "targets_file" PyNone = PyStr tf
       /\ (is_Some (scheduler (obj s'))
           <-> path_exists E (targets_path base tf) = true).
Proof.
  unfold construct. rewrite init_split. intros H.
  apply bind_returns in H as ([] & s1 & Hbefore & Hsched).
  destruct (before_scheduler_returns E cfg blank s1 Hbefore) as [Hcfg Hnone].
  (* the steps of the part before the scheduler *)
  pose proof Hbefore as H. unfold before_scheduler in H.
  apply bind_returns in H as (? & sa & Ha & H).
  apply bind_returns in H as (? & sb & Hb & H).
  apply bind_returns in H as (? & sc & Hc & H).
  apply bind_returns in H as (? & sd & Hd & H).
  apply bind_returns in H as ([] & se & He & H).
  apply bind_returns in H as (? & sf & Hf & H).
  apply bind_returns in H as (? & sg & Hg & H).
  apply bind_returns in H as (? & sh & Hh & H).
  apply bind_returns in H as ([] & si & Hi & H).
  (* location *)
  pose proof (setup_location_keys sd) as Kloc.
  rewrite He in Kloc. simpl in Kloc. specialize (Kloc eq_refl).
  injection Hf as Hf. injection Hg as Hg. injection Hh as Hh.
  assert (Lh : location (obj sh) = location (obj se))
    by (subst sh sg sf; reflexivity).
  pose proof (create_mount_keeps location PyNone
                (fun _ _ => eq_refl) sh) as Lm.
  pose proof (create_cameras_keeps location PyNone
                (fun _ _ => eq_refl) si) as Lc.
  pose proof (create_scheduler_keeps location (fun _ _ => eq_refl) s1) as Ls.
  rewrite Hi in Lm. rewrite H in Lc. rewrite Hsched in Ls. simpl in *.
  (* mount *)
  assert (Mi : is_Some (mount (obj si))).
  { pose proof (create_mount_run PyNone sh) as R. cbv zeta in R.
    rewrite Hi in R. simpl in R.
    destruct (py_get _ "model" PyNone) as [model|e|];
      [|destruct R; discriminate..].
    destruct (load_module E _) as [module|e|];
      [|destruct R; discriminate..].
    destruct (new_Mount E module _ _) as [m|e|];
      [|destruct R; discriminate..].
    destruct R as [_ ->]. simpl. eauto. }
  pose proof (create_cameras_keeps mount PyNone (fun _ _ => eq_refl) si)
    as Mc.
  pose proof (create_scheduler_keeps mount (fun _ _ => eq_refl) s1) as Ms.
  pose proof (create_scheduler_keeps config (fun _ _ => eq_refl) s1) as Cs.
  rewrite H in Mc. rewrite Hsched in Ms, Cs. simpl in *.
  split; [congruence|]. split; [congruence|].
  split; [rewrite Ms, Mc; exact Mi|].
  (* scheduler *)
  destruct (dict_get cfg "base_dir" PyNone) as [| | | |base| | |] eqn:Eb;
    try (exfalso; revert Hsched;
         unfold _create_scheduler, bind, attr, lift; simpl;
         rewrite Hcfg, Eb; discriminate).
  destruct (dict_get cfg "targets_file" PyNone) as [| | | |tf| | |] eqn:Et;
    try (exfalso; revert Hsched;
         unfold _create_scheduler, bind, attr, lift; simpl;
         rewrite Hcfg, Eb, Et; discriminate).
  exists base, tf. split; [reflexivity|]. split; [reflexivity|].
  destruct (create_scheduler_run s1 base tf) as [R1 R2];
    try (rewrite Hcfg; assumption).
  rewrite Hsched in R1, R2. simpl in R1, R2. rewrite R2, Hnone.
  destruct (path_exists E (targets_path base tf)).
  - destruct (new_Scheduler E _ _) as [sch|e|]; try discriminate.
    split; eauto.
  - split; [intros [? ?]; discriminate|discriminate].
Qed.

(** X27: a configuration without a [cameras] key cannot be constructed
    from when its [mount] entry is a mapping with at least one key: the
    camera loop then runs over the keys of that mapping, and construction
    raises, at the latest with the [AttributeError] of the first key. *)
Theorem construct_needs_cameras (cfg : dict) (k : string) (v : PyVal)
  (d : dict) :
  dict_lookup cfg "cameras" = None ->
  dict_get cfg "mount" PyNone = PyDict ((k, v) :: d) ->
  fst (construct E (Some cfg)) ≠ Ret tt.
Proof.
  intros Hnone Hmount Hret.
  destruct (construct E (Some cfg)) as [r s'] eqn:Hc. simpl in Hret.
  subst r. unfold construct in Hc. rewrite init_split in Hc.
  apply bind_returns in Hc as ([] & s1 & Hbefore & _).
  unfold before_scheduler in Hbefore.
  apply bind_returns in Hbefore as (? & sa & Ha & H).
  apply bind_returns in H as (? & sb & Hb & H).
  apply bind_returns in H as (? & sc & Hc & H).
  apply bind_returns in H as (? & sd & Hd & H).
  apply bind_returns in H as (? & se & He & H).
  apply bind_returns in H as (? & sf & Hf & H).
  apply bind_returns in H as (? & sg & Hg & H).
  apply bind_returns in H as (? & sh & Hh & H).
  apply bind_returns in H as (? & si & Hi & H).
  pose proof (setup_location_keeps_config E sd) as K1.
  pose proof (create_mount_keeps_config E PyNone sh) as K2.
  rewrite He in K1. rewrite Hi in K2. simpl in *.
  injection Ha as Ha. injection Hb as Hb. injection Hc as Hc.
  injection Hd as Hd. injection Hf as Hf. injection Hg as Hg.
  injection Hh as Hh. subst sa sb sc sd sf sg sh. simpl in *.
  assert (Hcfg : config (obj si) = cfg) by congruence.
  pose proof (fallback_on_mount_mapping_raises E si PyNone k v d) as R.
  rewrite Hcfg, H in R. simpl in R.
  specialize (R Hnone Hmount). discriminate.
Qed.

End More.

Lemma setup_location_all_or_nothing_witness :
  map fst (location (obj (snd (_setup_location sample_env
                                 (reconfigured cfg_no_timezone blank)))))
  = location_keys
  /\ obj (snd (_setup_location sample_env
                 (reconfigured cfg_no_latitude blank)))
     = obj (reconfigured cfg_no_latitude blank).
Proof.
  split.
  - apply (setup_location_all_or_nothing sample_env
             (reconfigured cfg_no_timezone blank)).
    vm_compute. reflexivity.
  - apply (setup_location_all_or_nothing sample_env
             (reconfigured cfg_no_latitude blank)).
    vm_compute. discriminate.
Defined.

Lemma setup_location_values_witness :
  fst (_setup_location sample_env (reconfigured cfg_no_timezone blank))
  = Ret tt
  /\ location (obj (snd (_setup_location sample_env
                          (reconfigured cfg_no_timezone blank))))
     = [("name", PyStr "Nameless Location");
        ("latitude", PyQuantity (PyFloat "19.54") "degree");
        ("longitude", PyQuantity (PyFloat "-155.58") "degree");
        ("elevation", PyQuantity (PyInt 0) "meter");
        ("timezone", PyNone);
        ("pressure", PyQuantity (PyFloat "0.68") "bar");
        ("horizon", PyQuantity (PyInt 0) "degree")].
Proof.
  apply (setup_location_values sample_env
           (reconfigured cfg_no_timezone blank)
           [("latitude", PyFloat "19.54"); ("longitude", PyFloat "-155.58")]);
    reflexivity.
Defined.

Lemma create_mount_builds_witness :
  fst (_create_mount sample_env PyNone (reconfigured cfg_good blank)) = Ret tt
  /\ obj (snd (_create_mount sample_env PyNone (reconfigured cfg_good blank)))
     = {| config := cfg_good; location := [];
          mount := Some (MountObj "panoptes.mount.simulator" cfg_good []);
          cameras := []; scheduler := None |}.
Proof.
  apply (create_mount_builds sample_env PyNone (reconfigured cfg_good blank)
           (PyStr "simulator") "panoptes.mount.simulator"
           (MountObj "panoptes.mount.simulator" cfg_good []));
    reflexivity.
Defined.

Lemma create_mount_load_failure_witness :
  fst (_create_mount sample_env bogus (reconfigured cfg_good blank))
  = Raise (ImportError "panoptes.mount.bogus")
  /\ obj (snd (_create_mount sample_env bogus (reconfigured cfg_good blank)))
     = obj (reconfigured cfg_good blank).
Proof.
  apply (create_mount_load_failure sample_env bogus
           (reconfigured cfg_good blank) (PyStr "bogus")
           (ImportError "panoptes.mount.bogus")); reflexivity.
Defined.

Lemma create_mount_without_entry_witness :
  fst (_create_mount sample_env PyNone
         (reconfigured [("location", PyDict site)] blank))
  = Raise (AttributeError "get")
  /\ obj (snd (_create_mount sample_env PyNone
                 (reconfigured [("location", PyDict site)] blank)))
     = obj (reconfigured [("location", PyDict site)] blank).
Proof.
  apply (create_mount_without_entry sample_env
           (reconfigured [("location", PyDict site)] blank)).
  reflexivity.
Defined.

Lemma create_cameras_builds_in_order_witness :
  fst (_create_cameras sample_env PyNone
         (reconfigured (dict_set cfg_good "cameras"
                          (PyList [simulator; simulator])) blank)) = Ret tt
  /\ obj (snd (_create_cameras sample_env PyNone
                 (reconfigured (dict_set cfg_good "cameras"
                                  (PyList [simulator; simulator])) blank)))
     = {| config := dict_set cfg_good "cameras"
                      (PyList [simulator; simulator]);
          location := []; mount := None;
          cameras := [CameraObj "panoptes.camera.simulator" simulator;
                      CameraObj "panoptes.camera.simulator" simulator];
          scheduler := None |}.
Proof.
  apply (create_cameras_builds_in_order sample_env PyNone
           (reconfigured (dict_set cfg_good "cameras"
                            (PyList [simulator; simulator])) blank)
           [simulator; simulator]
           [CameraObj "panoptes.camera.simulator" simulator;
            CameraObj "panoptes.camera.simulator" simulator]).
  - reflexivity.
  - repeat constructor.
Defined.

Lemma create_cameras_first_failure_witness :
  fst (_create_cameras unplugged_env PyNone (reconfigured cfg_good blank))
  = Raise (if is_ImportError (OtherException "USBError")
           then error_NotFound (PyStr "simulator")
           else OtherException "USBError")
  /\ obj (snd (_create_cameras unplugged_env PyNone
                 (reconfigured cfg_good blank)))
     = obj (reconfigured cfg_good blank).
Proof.
  apply (create_cameras_first_failure unplugged_env PyNone
           (reconfigured cfg_good blank) [] [] [] simulator
           (PyStr "simulator") (OtherException "USBError")).
  - reflexivity.
  - constructor.
  - reflexivity.
  - reflexivity.
Defined.

Lemma create_cameras_entry_not_a_mapping_witness :
  fst (_create_cameras sample_env PyNone
         (reconfigured cfg_bare_camera blank))
  = Raise (AttributeError "get")
  /\ obj (snd (_create_cameras sample_env PyNone
                 (reconfigured cfg_bare_camera blank)))
     = obj (reconfigured cfg_bare_camera blank).
Proof.
  apply (create_cameras_entry_not_a_mapping sample_env PyNone
           (reconfigured cfg_bare_camera blank) [simulator] []
           [CameraObj "panoptes.camera.simulator" simulator]
           (PyStr "simulator")).
  - reflexivity.
  - repeat constructor.
  - intros d. discriminate.
Defined.

Lemma create_scheduler_with_file_witness :
  let s := reconfigured cfg_good blank in
  let path := targets_path "/var/panoptes/POCS" "default_targets.yaml" in
  fst (_create_scheduler stocked_env s)
  = match new_Scheduler stocked_env path (location (obj s)) with
    | Ret _ => Ret tt
    | Raise e => Raise e
    | Blocked => Blocked
    end
  /\ scheduler (obj (snd (_create_scheduler stocked_env s)))
     = match new_Scheduler stocked_env path (location (obj s)) with
       | Ret sch => Some sch
       | _ => scheduler (obj s)
       end
  /\ config (obj (snd (_create_scheduler stocked_env s))) = config (obj s)
  /\ location (obj (snd (_create_scheduler stocked_env s)))
     = location (obj s)
  /\ mount (obj (snd (_create_scheduler stocked_env s))) = mount (obj s)
  /\ cameras (obj (snd (_create_scheduler stocked_env s)))
     = cameras (obj s).
Proof.
  apply (create_scheduler_with_file stocked_env
           (reconfigured cfg_good blank) "/var/panoptes/POCS"
           "default_targets.yaml"); reflexivity.
Defined.

Lemma create_scheduler_without_path_witness :
  fst (_create_scheduler stocked_env
         (reconfigured [("base_dir", PyStr "/var/panoptes/POCS")] blank))
  = Raise (TypeError "join() argument must be str or bytes")
  /\ obj (snd (_create_scheduler stocked_env
                 (reconfigured [("base_dir", PyStr "/var/panoptes/POCS")]
                    blank)))
     = obj (reconfigured [("base_dir", PyStr "/var/panoptes/POCS")] blank).
Proof.
  apply (create_scheduler_without_path stocked_env
           (reconfigured [("base_dir", PyStr "/var/panoptes/POCS")] blank)).
  right. reflexivity.
Defined.

Lemma create_scheduler_absolute_targets_file_witness :
  let s := reconfigured cfg_absolute_targets blank in
  fst (_create_scheduler stocked_env s)
  = (if path_exists stocked_env "/etc/panoptes/targets.yaml" then
       match new_Scheduler stocked_env "/etc/panoptes/targets.yaml"
               (location (obj s)) with
       | Ret _ => Ret tt
       | Raise e => Raise e
       | Blocked => Blocked
       end
     else Ret tt)
  /\ scheduler (obj (snd (_create_scheduler stocked_env s)))
     = (if path_exists stocked_env "/etc/panoptes/targets.yaml" then
          match new_Scheduler stocked_env "/etc/panoptes/targets.yaml"
                  (location (obj s)) with
          | Ret sch => Some sch
          | _ => scheduler (obj s)
          end
        else scheduler (obj s)).
Proof.
  apply (create_scheduler_absolute_targets_file stocked_env
           (reconfigured cfg_absolute_targets blank) "/var/panoptes/POCS"
           "/etc/panoptes/targets.yaml"); reflexivity.
Defined.

Lemma constructed_observatory_witness :
  let s' := snd (construct stocked_env (Some cfg_good)) in
  config (obj s') = cfg_good
  /\ map fst (location (obj s')) = location_keys
  /\ is_Some (mount (obj s'))
  /\ exists base tf,
       dict_get cfg_good "base_dir" PyNone = PyStr base
       /\ dict_get cfg_good "targets_file" PyNone = PyStr tf
       /\ (is_Some (scheduler (obj s'))
           <-> path_exists stocked_env (targets_path base tf) = true).
Proof.
  apply (constructed_observatory stocked_env cfg_good
           (snd (construct stocked_env (Some cfg_good)))).
  vm_compute. reflexivity.
Defined.

Lemma construct_needs_cameras_witness :
  fst (construct sample_env (Some cfg_no_cameras)) ≠ Ret tt.
Proof.
  apply (construct_needs_cameras sample_env cfg_no_cameras "model"
           (PyStr "simulator") []); reflexivity.
Defined.

End ObsMore.
